(** * Subscription entitlement service: a shallow embedding

    The development follows [SubscriptionService] (subscriptionService.ts):
    the plan catalog, subscription creation, the latest-subscription lookup,
    status transitions, access evaluation and the fleet statistics.

    Conventions of the embedding.
    - Plan types and statuses are the strings the record store hands back;
      the TypeScript unions are erased at run time and the code keeps a
      [default] branch for values outside them.
    - A timestamp is the millisecond count [Date.prototype.getTime] yields.
      The ISO-8601 text kept in the store is the image of that count under
      [toISOString], which [new Date(text)] inverts.
    - JavaScript numbers that hold counts and millisecond differences are
      integers ([nat], [Z]), and the day quotient of the access check is an
      exact rational.  Money and percentages are IEEE 754 doubles, the
      kernel's binary64 [float], with the operations in the order the code
      applies them.
    - An [async] method is a function from the world (clock, table, store
      condition, console) to a completion and the world afterwards. *)

From Stdlib Require Import ZArith QArith Qround String DecimalString List Bool Lia.
From Stdlib Require Import Sorted Permutation.
From Stdlib Require Import Floats Uint63.

#[local] Set Warnings "-inexact-float".
Import ListNotations.

Local Open Scope string_scope.
Local Open Scope Z_scope.

(** ** Data model *)

Definition Timestamp := Z.

(** [interface Subscription] *)
Record Subscription : Type := mkSubscription {
  id : string;
  user_id : string;
  plan_type : string;
  status : string;
  stripe_subscription_id : option string;
  stripe_customer_id : option string;
  current_period_start : Timestamp;
  current_period_end : Timestamp;
  created_at : Timestamp;
  updated_at : Timestamp
}.

(** [interface PlanFeatures]; a ceiling of [-1] stands for "unlimited". *)
Record PlanFeatures : Type := mkPlanFeatures {
  maxCustomers : Z;
  maxBranches : Z;
  advancedAnalytics : bool;
  prioritySupport : bool;
  customBranding : bool;
  apiAccess : bool
}.

(** The anonymous result type of [checkSubscriptionAccess]; the field
    [daysRemaining?] is optional, an absent field is [None]. *)
Record AccessDecision : Type := mkAccessDecision {
  hasAccess : bool;
  subscription : option Subscription;
  features : PlanFeatures;
  daysRemaining : option Z
}.

(** The anonymous result type of [getSubscriptionStats]. *)
Record SubscriptionStats : Type := mkSubscriptionStats {
  total : nat;
  active : nat;
  trial : nat;
  paid : nat;
  revenue : float;
  churnRate : float
}.

(** A count as a JavaScript number; exact below 2^53, which no array
    length reaches. *)
Definition Number_of_count (n : nat) : float :=
  PrimFloat.of_uint63 (Uint63.of_Z (Z.of_nat n)).

(** ** Completions, the world and the [async] monad *)

(** What is thrown, and what the store client puts in its [error] field. *)
Record JsError : Type := mkJsError {
  code : string;
  message : string
}.

Inductive Completion (A : Type) : Type :=
| Returned (a : A)
| Thrown (e : JsError).
Arguments Returned {A} a.
Arguments Thrown {A} e.

(** How the record store misbehaves, when it does: the query resolves with
    its [error] field set, or the awaited promise rejects. *)
Inductive Fault : Type :=
| ErrorResponse (e : JsError)
| Rejection (e : JsError).

Record World : Type := mkWorld {
  clock : Timestamp;                    (* what [new Date()] reads *)
  table : list Subscription;            (* 'subscriptions', insertion order *)
  outage : option Fault;                (* condition of the store *)
  mint : nat -> string;                 (* the store's id generator *)
  console : list (string * JsError)     (* [console.error] lines, newest first *)
}.

Definition Async (A : Type) : Type := World -> Completion A * World.

Definition ret {A} (a : A) : Async A := fun w => (Returned a, w).

Definition throw {A} (e : JsError) : Async A := fun w => (Thrown e, w).

Definition bind {A B} (m : Async A) (k : A -> Async B) : Async B :=
  fun w =>
    match m w with
    | (Returned a, w') => k a w'
    | (Thrown e, w') => (Thrown e, w')
    end.

(** [try { body } catch (error) { handler }] *)
Definition try_catch {A} (body : Async A) (handler : JsError -> Async A)
  : Async A :=
  fun w =>
    match body w with
    | (Returned a, w') => (Returned a, w')
    | (Thrown e, w') => handler e w'
    end.

Declare Scope async_scope.
Delimit Scope async_scope with async.
Notation "x <- m ;; k" := (bind m (fun x => k))
  (at level 61, m at next level, right associativity) : async_scope.
Notation "m ;; k" := (bind m (fun _ => k))
  (at level 61, right associativity) : async_scope.
Local Open Scope async_scope.

(** [new Date()] then [getTime()] *)
Definition new_Date : Async Timestamp := fun w => (Returned (clock w), w).

(** [console.error(label, error)] *)
Definition console_error (label : string) (e : JsError) : Async unit :=
  fun w =>
    (Returned tt,
     {| clock := clock w; table := table w; outage := outage w;
        mint := mint w; console := (label, e) :: console w |}).

(** ** The record store

    The query builder of the store client, specialised to the four
    queries the service issues.  A query resolves to [{ data, error }]. *)

Module Store.

Record Response (A : Type) : Type := mkResponse {
  data : option A;
  error : option JsError
}.
Arguments mkResponse {A} data error.
Arguments data {A} r.
Arguments error {A} r.

(** One key of the object literal given to [insert] or [update]. *)
Inductive Assignment : Type :=
| Set_user_id (v : string)
| Set_plan_type (v : string)
| Set_status (v : string)
| Set_stripe_subscription_id (v : option string)
| Set_stripe_customer_id (v : option string)
| Set_current_period_start (v : Timestamp)
| Set_current_period_end (v : Timestamp)
| Set_updated_at (v : Timestamp).

Definition assign (row : Subscription) (a : Assignment) : Subscription :=
  match a with
  | Set_user_id v =>
      mkSubscription (id row) v (plan_type row) (status row)
        (stripe_subscription_id row) (stripe_customer_id row)
        (current_period_start row) (current_period_end row)
        (created_at row) (updated_at row)
  | Set_plan_type v =>
      mkSubscription (id row) (user_id row) v (status row)
        (stripe_subscription_id row) (stripe_customer_id row)
        (current_period_start row) (current_period_end row)
        (created_at row) (updated_at row)
  | Set_status v =>
      mkSubscription (id row) (user_id row) (plan_type row) v
        (stripe_subscription_id row) (stripe_customer_id row)
        (current_period_start row) (current_period_end row)
        (created_at row) (updated_at row)
  | Set_stripe_subscription_id v =>
      mkSubscription (id row) (user_id row) (plan_type row) (status row)
        v (stripe_customer_id row)
        (current_period_start row) (current_period_end row)
        (created_at row) (updated_at row)
  | Set_stripe_customer_id v =>
      mkSubscription (id row) (user_id row) (plan_type row) (status row)
        (stripe_subscription_id row) v
        (current_period_start row) (current_period_end row)
        (created_at row) (updated_at row)
  | Set_current_period_start v =>
      mkSubscription (id row) (user_id row) (plan_type row) (status row)
        (stripe_subscription_id row) (stripe_customer_id row)
        v (current_period_end row)
        (created_at row) (updated_at row)
  | Set_current_period_end v =>
      mkSubscription (id row) (user_id row) (plan_type row) (status row)
        (stripe_subscription_id row) (stripe_customer_id row)
        (current_period_start row) v
        (created_at row) (updated_at row)
  | Set_updated_at v =>
      mkSubscription (id row) (user_id row) (plan_type row) (status row)
        (stripe_subscription_id row) (stripe_customer_id row)
        (current_period_start row) (current_period_end row)
        (created_at row) v
  end.

Definition assign_all (row : Subscription) (values : list Assignment)
  : Subscription :=
  fold_left assign values row.

(** The row the store starts from on [insert]: generated id, both audit
    stamps at the time of the write, every other column empty. *)
Definition blank (w : World) : Subscription :=
  mkSubscription (mint w (length (table w))) "" "" "" None None 0 0
    (clock w) (clock w).

Definition with_table (w : World) (rows : list Subscription) : World :=
  {| clock := clock w; table := rows; outage := outage w;
     mint := mint w; console := console w |}.

(** Every query goes through here: a store in trouble answers with the
    fault and touches nothing. *)
Definition query {A} (run : World -> Response A * World)
  : Async (Response A) :=
  fun w =>
    match outage w with
    | Some (ErrorResponse e) => (Returned (mkResponse None (Some e)), w)
    | Some (Rejection e) => (Thrown e, w)
    | None => let (r, w') := run w in (Returned r, w')
    end.

(** [.insert(values).select().single()] *)
Definition insert_select_single (values : list Assignment)
  : Async (Response Subscription) :=
  query (fun w =>
    let row := assign_all (blank w) values in
    (mkResponse (Some row) None, with_table w (table w ++ [row]))).

(** [.order('created_at', { ascending: false })], as a stable insertion
    sort. *)
Fixpoint insert_desc (r : Subscription) (sorted : list Subscription)
  : list Subscription :=
  match sorted with
  | [] => [r]
  | x :: rest =>
      if created_at r <? created_at x then x :: insert_desc r rest
      else r :: x :: rest
  end.

Definition order_created_at_desc (rows : list Subscription)
  : list Subscription :=
  fold_right insert_desc [] rows.

(** [.maybeSingle()]: no row is [null] without error, more than one row
    is the error [PGRST116]. *)
Definition maybeSingle (rows : list Subscription) : Response Subscription :=
  match rows with
  | [] => mkResponse None None
  | [r] => mkResponse (Some r) None
  | _ => mkResponse None
           (Some (mkJsError "PGRST116"
                    "JSON object requested, multiple (or no) rows returned"))
  end.

(** [.select('*').eq('user_id', userId).order(..).limit(1).maybeSingle()] *)
Definition select_latest_of_user (userId : string)
  : Async (Response Subscription) :=
  query (fun w =>
    let mine := filter (fun r => (user_id r =? userId)%string) (table w) in
    (maybeSingle (firstn 1 (order_created_at_desc mine)), w)).

(** [.update(values).eq('id', subscriptionId)] *)
Definition update_eq_id (values : list Assignment) (subscriptionId : string)
  : Async (Response unit) :=
  query (fun w =>
    let rows :=
      map (fun r => if (id r =? subscriptionId)%string
                    then assign_all r values else r) (table w) in
    (mkResponse None None, with_table w rows)).

(** [.select('plan_type, status, created_at')]; the rows are kept whole,
    the caller reads the selected columns only. *)
Definition select_all : Async (Response (list Subscription)) :=
  query (fun w => (mkResponse (Some (table w)) None, w)).

End Store.
Import Store.

(** ** The service: [export class SubscriptionService] *)

Module SubscriptionService.

(** [private static getTrialFeatures()] *)
Definition getTrialFeatures : PlanFeatures :=
  {| maxCustomers := 100;
     maxBranches := 1;
     advancedAnalytics := false;
     prioritySupport := false;
     customBranding := false;
     apiAccess := false |}.

(** [static getPlanFeatures(planType)]: the three paid cases share one
    body, whose last two flags test [planType !== 'monthly']. *)
Definition getPlanFeatures (planType : string) : PlanFeatures :=
  if (planType =? "trial")%string then getTrialFeatures
  else if ((planType =? "monthly") || (planType =? "semiannual")
           || (planType =? "annual"))%string
  then {| maxCustomers := -1;
          maxBranches := -1;
          advancedAnalytics := true;
          prioritySupport := true;
          customBranding := negb (planType =? "monthly")%string;
          apiAccess := negb (planType =? "monthly")%string |}
  else getTrialFeatures.

(** The [switch (planType)] of [createSubscription] that sets
    [periodEnd] from [now.getTime()]. *)
Definition periodEnd (planType : string) (now : Timestamp) : Timestamp :=
  if (planType =? "trial")%string then now + 30 * 24 * 60 * 60 * 1000
  else if (planType =? "monthly")%string then now + 30 * 24 * 60 * 60 * 1000
  else if (planType =? "semiannual")%string
  then now + 180 * 24 * 60 * 60 * 1000
  else if (planType =? "annual")%string then now + 365 * 24 * 60 * 60 * 1000
  else now + 30 * 24 * 60 * 60 * 1000.

(** [static async createSubscription(userId, planType,
    stripeSubscriptionId?, stripeCustomerId?)] *)
Definition createSubscription (userId planType : string)
    (stripeSubscriptionId stripeCustomerId : option string)
  : Async (option Subscription) :=
  try_catch
    (now <- new_Date ;;
     let periodStart := now in
     let periodEnd := periodEnd planType now in
     r <- insert_select_single
            [ Set_user_id userId;
              Set_plan_type planType;
              Set_status "active";
              Set_stripe_subscription_id stripeSubscriptionId;
              Set_stripe_customer_id stripeCustomerId;
              Set_current_period_start periodStart;
              Set_current_period_end periodEnd ] ;;
     match error r with
     | Some e => throw e
     | None => ret (data r)
     end)
    (fun e =>
       console_error "Error creating subscription:" e ;;
       throw e).

(** [static async getUserSubscription(userId)] *)
Definition getUserSubscription (userId : string)
  : Async (option Subscription) :=
  try_catch
    (r <- select_latest_of_user userId ;;
     match error r with
     | Some e =>
         if negb (code e =? "PGRST116")%string then throw e
         else ret (data r)
     | None => ret (data r)
     end)
    (fun e =>
       console_error "Error fetching user subscription:" e ;;
       ret None).

(** [static async updateSubscriptionStatus(subscriptionId, status)] *)
Definition updateSubscriptionStatus (subscriptionId status : string)
  : Async unit :=
  try_catch
    (now <- new_Date ;;
     r <- update_eq_id [ Set_status status; Set_updated_at now ]
            subscriptionId ;;
     match error r with
     | Some e => throw e
     | None => ret tt
     end)
    (fun e =>
       console_error "Error updating subscription status:" e ;;
       throw e).

(** [Math.ceil(x / y)] on integers [x], [y]: the exact quotient, rounded
    up.  (For millisecond differences within the range of [Date] and a
    divisor of one day the double quotient rounds up to the same
    integer.) *)
Definition Math_ceil_div (x y : Z) : Z :=
  Qceiling (inject_Z x / inject_Z y).

(** The object both the [!subscription] branch and the [catch] branch of
    [checkSubscriptionAccess] return: no [daysRemaining] key. *)
Definition noSubscription : AccessDecision :=
  {| hasAccess := false;
     subscription := None;
     features := getTrialFeatures;
     daysRemaining := None |}.

(** [static async checkSubscriptionAccess(userId)] *)
Definition checkSubscriptionAccess (userId : string)
  : Async AccessDecision :=
  try_catch
    (found <- getUserSubscription userId ;;
     match found with
     | None => ret noSubscription
     | Some sub =>
         now <- new_Date ;;
         let endDate := current_period_end sub in
         let hasAccess :=
           (status sub =? "active")%string && (endDate >? now) in
         let daysRemaining :=
           Math_ceil_div (endDate - now) (1000 * 60 * 60 * 24) in
         ret {| hasAccess := hasAccess;
                subscription := Some sub;
                features := getPlanFeatures (plan_type sub);
                daysRemaining :=
                  Some (if daysRemaining >? 0 then daysRemaining else 0) |}
     end)
    (fun e =>
       console_error "Error checking subscription access:" e ;;
       ret noSubscription).

(** [subscriptions?.length || 0] *)
Definition length_or_0 (subscriptions : option (list Subscription)) : nat :=
  match subscriptions with
  | Some rows => length rows
  | None => 0%nat
  end.

(** [subscriptions?.filter(p).length || 0] *)
Definition count_or_0 (p : Subscription -> bool)
    (subscriptions : option (list Subscription)) : nat :=
  match subscriptions with
  | Some rows => length (filter p rows)
  | None => 0%nat
  end.

(** The callback given to [reduce] *)
Definition add_price (sum : float) (sub : Subscription) : float :=
  if (plan_type sub =? "monthly")%string then (sum + 2.99)%float
  else if (plan_type sub =? "semiannual")%string then (sum + 9.99)%float
  else if (plan_type sub =? "annual")%string then (sum + 19.99)%float
  else sum.

(** [x || 0] on a number: both zeros and NaN are falsy. *)
Definition or_0 (x : float) : float :=
  if PrimFloat.is_zero x || PrimFloat.is_nan x then 0%float else x.

Definition zeroStats : SubscriptionStats :=
  {| total := 0; active := 0; trial := 0; paid := 0;
     revenue := 0; churnRate := 0 |}.

(** [static async getSubscriptionStats()] *)
Definition getSubscriptionStats : Async SubscriptionStats :=
  try_catch
    (r <- select_all ;;
     match error r with
     | Some e => throw e
     | None =>
         let subscriptions := data r in
         let total := length_or_0 subscriptions in
         let active :=
           count_or_0 (fun s => (status s =? "active")%string)
             subscriptions in
         let trial :=
           count_or_0 (fun s => (plan_type s =? "trial")%string)
             subscriptions in
         let paid :=
           count_or_0 (fun s => negb (plan_type s =? "trial")%string)
             subscriptions in
         let revenue :=
           match subscriptions with
           | Some rows => or_0 (fold_left add_price rows 0%float)
           | None => 0%float
           end in
         let cancelled :=
           count_or_0 (fun s => (status s =? "cancelled")%string)
             subscriptions in
         let churnRate :=
           if (0 <? total)%nat
           then (Number_of_count cancelled / Number_of_count total
                 * 100)%float
           else 0%float in
         ret {| total := total; active := active; trial := trial;
                paid := paid; revenue := revenue; churnRate := churnRate |}
     end)
    (fun e =>
       console_error "Error fetching subscription stats:" e ;;
       ret zeroStats).

End SubscriptionService.
Import SubscriptionService.

(** ** The service, continued: the administrative listing *)

(** [user:users(email, user_metadata)]; the metadata is kept as text. *)
Record UserColumns : Type := mkUserColumns {
  email : string;
  user_metadata : string
}.

(** [restaurant:restaurants(name, slug)] *)
Record RestaurantColumns : Type := mkRestaurantColumns {
  name : string;
  slug : string
}.

(** [Subscription & { user; restaurant }] *)
Record SubscriptionWithRelations : Type := mkSubscriptionWithRelations {
  columns : Subscription;
  user : UserColumns;
  restaurant : option RestaurantColumns
}.

(** What the store embeds beside a row; the related tables are not part
    of the world, so the embedding is given. *)
Definition Embedding : Type :=
  Subscription -> UserColumns * option RestaurantColumns.

(** [.select(`*, user:users(..), restaurant:restaurants(..)`)
     .order('created_at', { ascending: false })] *)
Definition select_with_relations_ordered (embed : Embedding)
  : Async (Response (list SubscriptionWithRelations)) :=
  query (fun w =>
    (mkResponse
       (Some (map (fun r => mkSubscriptionWithRelations r (fst (embed r))
                              (snd (embed r)))
                (order_created_at_desc (table w))))
       None,
     w)).

(** [static async getAllSubscriptions()] *)
Definition getAllSubscriptions (embed : Embedding)
  : Async (list SubscriptionWithRelations) :=
  try_catch
    (r <- select_with_relations_ordered embed ;;
     match error r with
     | Some e => throw e
     | None =>
         ret (match data r with
              | Some rows => rows
              | None => []
              end)
     end)
    (fun e =>
       console_error "Error fetching all subscriptions:" e ;;
       ret []).

(** ** The administration dashboard: [SuperAdminUI.tsx] *)

Module SuperAdminUI.

Record PlanDistribution : Type := mkPlanDistribution {
  trial : nat;
  monthly : nat;
  semiannual : nat;
  annual : nat
}.

(** [interface SubscriptionStats] of the dashboard *)
Record SubscriptionStats : Type := mkSubscriptionStats {
  totalUsers : nat;
  activeSubscriptions : nat;
  trialUsers : nat;
  paidUsers : nat;
  totalRevenue : float;
  monthlyRevenue : float;
  churnRate : float;
  planDistribution : PlanDistribution
}.

(** [subscriptions.filter(p).length] *)
Definition count (p : Subscription -> bool) (subscriptions : list Subscription)
  : nat :=
  length (filter p subscriptions).

(** [supabase.from('users').select('*', { count: 'exact', head: true })]:
    [users] is the size of the users table, which the world does not
    hold; the count is [null] when the query resolves with an error. *)
Definition count_users (users : nat) : Async (Response nat) :=
  query (fun w => (mkResponse (Some users) None, w)).

(** [const loadSubscriptionStats = async () => ..]: the value handed to
    [setStats], or [None] when [setStats] is not reached. *)
Definition loadSubscriptionStats (users : nat)
  : Async (option SubscriptionStats) :=
  try_catch
    (c <- count_users users ;;
     let totalUsers := data c in
     r <- select_all ;;
     match data r with
     | Some subscriptions =>
         let activeSubscriptions :=
           count (fun s => (status s =? "active")%string) subscriptions in
         let trialUsers :=
           count (fun s => (plan_type s =? "trial")%string
                           && (status s =? "active")%string) subscriptions in
         let paidUsers :=
           count (fun s => negb (plan_type s =? "trial")%string
                           && (status s =? "active")%string) subscriptions in
         let planDistribution :=
           {| trial :=
                count (fun s => (plan_type s =? "trial")%string) subscriptions;
              monthly :=
                count (fun s => (plan_type s =? "monthly")%string)
                  subscriptions;
              semiannual :=
                count (fun s => (plan_type s =? "semiannual")%string)
                  subscriptions;
              annual :=
                count (fun s => (plan_type s =? "annual")%string)
                  subscriptions |} in
         let num := Number_of_count in
         let monthlyRevenue :=
           (num (monthly planDistribution) * 2.99
            + num (semiannual planDistribution) * 9.99 / 6
            + num (annual planDistribution) * 19.99 / 12)%float in
         let totalRevenue :=
           (num (monthly planDistribution) * 2.99 * 6
            + num (semiannual planDistribution) * 9.99
            + num (annual planDistribution) * 19.99)%float in
         let expiredSubscriptions :=
           count (fun s => (status s =? "expired")%string) subscriptions in
         let churnRate :=
           match totalUsers with
           | Some n =>
               if (0 <? n)%nat
               then (num expiredSubscriptions / num n * 100)%float
               else 0%float
           | None => 0%float
           end in
         ret (Some
                {| totalUsers := match totalUsers with
                                 | Some n => n
                                 | None => 0%nat
                                 end;
                   activeSubscriptions := activeSubscriptions;
                   trialUsers := trialUsers;
                   paidUsers := paidUsers;
                   totalRevenue := totalRevenue;
                   monthlyRevenue := monthlyRevenue;
                   churnRate := churnRate;
                   planDistribution := planDistribution |})
     | None => ret None
     end)
    (fun e =>
       console_error "Error loading subscription stats:" e ;;
       ret None).

End SuperAdminUI.

(** ** The upgrade page: [UpgradePage.tsx] *)

Module UpgradePage.

(** The three texts of the "Current Plan Status" card, as functions of
    the decision kept in [currentSubscription]. *)

(** [currentSubscription.subscription?.plan_type || 'Trial'] *)
Definition currentPlan (d : AccessDecision) : string :=
  match subscription d with
  | Some sub => if (plan_type sub =? "")%string then "Trial" else plan_type sub
  | None => "Trial"
  end.

(** [daysRemaining > 0 ? `${daysRemaining} days remaining` : 'Expired'];
    an absent [daysRemaining] compares false. *)
Definition remainingLine (d : AccessDecision) : string :=
  match daysRemaining d with
  | Some n =>
      if n >? 0
      then NilEmpty.string_of_int (Z.to_int n) ++ " days remaining"
      else "Expired"
  | None => "Expired"
  end.

(** [hasAccess ? 'Active' : 'Expired'] *)
Definition badge (d : AccessDecision) : string :=
  if hasAccess d then "Active" else "Expired".

(** The component state [handleUpgrade] touches, and where it navigated. *)
Record PageState : Type := mkPageState {
  selectedPlan : string;
  upgrading : bool;
  errorText : string;
  navigated : option (string * string)
}.

(** [await new Promise(resolve => setTimeout(resolve, 2000))]: the clock
    has moved on by [elapsed] when the timer fires. *)
Definition sleep (elapsed : Z) : Async unit :=
  fun w =>
    (Returned tt,
     {| clock := clock w + elapsed; table := table w; outage := outage w;
        mint := mint w; console := console w |}).

(** [const handleUpgrade = async () => ..]; [currentUser] is [user?.id]
    and [elapsed] the time the two-second timer took.  The [console.log]
    line is left out: the console of the world holds [console.error]
    lines. *)
Definition handleUpgrade (currentUser : option string) (elapsed : Z)
    (st : PageState) : Async PageState :=
  match currentUser with
  | None => ret st
  | Some userId =>
      let started :=
        {| selectedPlan := selectedPlan st; upgrading := true;
           errorText := ""; navigated := navigated st |} in
      after <-
        try_catch
          (existingSubscription <- getUserSubscription userId ;;
           sleep elapsed ;;
           created <- createSubscription userId (selectedPlan started)
                        None None ;;
           ret {| selectedPlan := selectedPlan started;
                  upgrading := upgrading started;
                  errorText := errorText started;
                  navigated :=
                    Some ("/dashboard",
                          "Subscription upgraded successfully!") |})
          (fun err =>
             ret {| selectedPlan := selectedPlan started;
                    upgrading := upgrading started;
                    errorText :=
                      "Failed to upgrade subscription. Please try again or contact support.";
                    navigated := navigated started |}) ;;
      ret {| selectedPlan := selectedPlan after; upgrading := false;
             errorText := errorText after; navigated := navigated after |}
  end.

End UpgradePage.

(** ** Vocabulary of the specification *)

(** The values of the union type [plan_type]. *)
Definition PLAN_TYPES : list string :=
  ["trial"; "monthly"; "semiannual"; "annual"].

(** One day in milliseconds. *)
Definition DAY : Z := 86400000.

(** The period table as the specification words it: 30 days for trial and
    monthly, 180 for semiannual, 365 for annual, 30 for anything else. *)
Definition catalogDurationDays (planType : string) : Z :=
  if (planType =? "semiannual")%string then 180
  else if (planType =? "annual")%string then 365
  else 30.

(** The world after [console.error(label, e)]. *)
Definition logged (label : string) (e : JsError) (w : World) : World :=
  snd (console_error label e w).

(** The error a fault carries. *)
Definition fault_error (f : Fault) : JsError :=
  match f with
  | ErrorResponse e => e
  | Rejection e => e
  end.

(** The row [createSubscription] asks the store to add. *)
Definition created_row (w : World) (userId planType : string)
    (stripeSubscriptionId stripeCustomerId : option string) : Subscription :=
  {| id := mint w (length (table w));
     user_id := userId;
     plan_type := planType;
     status := "active";
     stripe_subscription_id := stripeSubscriptionId;
     stripe_customer_id := stripeCustomerId;
     current_period_start := clock w;
     current_period_end := periodEnd planType (clock w);
     created_at := clock w;
     updated_at := clock w |}.

(** The flat price the revenue estimate attaches to a plan, as the
    decimal number it is written as. *)
Definition price (planType : string) : Q :=
  if (planType =? "monthly")%string then 2.99%Q
  else if (planType =? "semiannual")%string then 9.99%Q
  else if (planType =? "annual")%string then 19.99%Q
  else 0%Q.

(** Sum of a list of rationals. *)
Definition sumQ (l : list Q) : Q := fold_right Qplus 0%Q l.

(** How many cells of a column hold the value [v]. *)
Definition occurrences (v : string) (column : list string) : nat :=
  count_occ string_dec column v.

(** How many cells of a column hold something else than [v]. *)
Definition others (v : string) (column : list string) : nat :=
  length (filter (fun c => if string_dec c v then false else true) column).

(** A count as a rational. *)
Definition QofN (n : nat) : Q := inject_Z (Z.of_nat n).

(** The rational a double stands for, when it is finite. *)
Definition exact (x : float) : option Q :=
  match Prim2SF x with
  | S754_zero _ => Some 0%Q
  | S754_finite s m e =>
      Some (inject_Z (if s then Z.neg m else Z.pos m) * Qpower 2 e)%Q
  | S754_infinity _ => None
  | S754_nan => None
  end.

(** The double [x] stands for the rational [q]. *)
Definition exactly (x : float) (q : Q) : Prop :=
  match exact x with
  | Some r => (r == q)%Q
  | None => False
  end.

(** The amounts the revenue estimate adds, in table order: one per
    monthly, semiannual or annual row, none for any other row. *)
Definition amounts (rows : list Subscription) : list float :=
  flat_map
    (fun s =>
       if (plan_type s =? "monthly")%string then [2.99%float]
       else if (plan_type s =? "semiannual")%string then [9.99%float]
       else if (plan_type s =? "annual")%string then [19.99%float]
       else [])
    rows.

(** The sum of doubles taken from left to right, starting from 0. *)
Definition running_sum (amounts : list float) : float :=
  fold_left PrimFloat.add amounts 0%float.

(** A double that is +0, a positive finite number or +infinity: neither
    NaN nor below zero nor the negative zero. *)
Definition sf_not_negative (x : spec_float) : Prop :=
  match x with
  | S754_zero false => True
  | S754_finite false _ _ => True
  | S754_infinity false => True
  | _ => False
  end.

Definition not_negative (x : float) : Prop := sf_not_negative (Prim2SF x).

(** ** Sample worlds

    Three rows: an expired monthly row and a later active annual row of
    one tenant, a cancelled trial row of another; the clock stands at day
    60. *)

Definition row_a1 : Subscription :=
  mkSubscription "a1" "alice" "monthly" "expired" None None
    0 (30 * DAY) 0 (31 * DAY).

Definition row_a2 : Subscription :=
  mkSubscription "a2" "alice" "annual" "active" (Some "sub_9") (Some "cus_4")
    (40 * DAY) (405 * DAY) (40 * DAY) (40 * DAY).

Definition row_b1 : Subscription :=
  mkSubscription "b1" "bob" "trial" "cancelled" None None
    (50 * DAY) (80 * DAY) (50 * DAY) (55 * DAY).

Definition sample_mint (n : nat) : string :=
  "row-" ++ NilEmpty.string_of_uint (Nat.to_uint n).

Definition world_up : World :=
  mkWorld (60 * DAY) [row_a1; row_a2; row_b1] None sample_mint [].

Definition world_empty : World :=
  mkWorld (60 * DAY) [] None sample_mint [].

Definition connection_lost : JsError :=
  mkJsError "08006" "connection failure".

Definition world_down : World :=
  mkWorld (60 * DAY) [row_a1; row_a2; row_b1]
    (Some (ErrorResponse connection_lost)) sample_mint [].

(** Ten rows, two of them cancelled and eight active. *)
Definition world_ten : World :=
  mkWorld (60 * DAY)
    (repeat row_b1 2 ++ repeat row_a2 5
     ++ repeat (mkSubscription "m" "dan" "monthly" "active" None None
                  0 (30 * DAY) 0 0) 3)
    None sample_mint [].

(** Twenty-five rows, seven of them cancelled. *)
Definition world_quarter : World :=
  mkWorld (60 * DAY) (repeat row_b1 7 ++ repeat row_a2 18) None sample_mint [].

Definition world_unreachable : World :=
  mkWorld (60 * DAY) [row_a1; row_a2; row_b1]
    (Some (Rejection (mkJsError "" "fetch failed"))) sample_mint [].

(** A cancelled annual row whose period is still running, beside the
    expired monthly row. *)
Definition row_c1 : Subscription :=
  mkSubscription "c1" "carol" "annual" "cancelled" None None
    (10 * DAY) (375 * DAY) (10 * DAY) (20 * DAY).

Definition world_lapsed : World :=
  mkWorld (60 * DAY) [row_a1; row_c1] None sample_mint [].

(** What [updateSubscriptionStatus] does to one row. *)
Definition retouched (subscriptionId newStatus : string) (now : Timestamp)
    (r : Subscription) : Subscription :=
  if (id r =? subscriptionId)%string
  then assign_all r [Set_status newStatus; Set_updated_at now]
  else r.

(** An embedding for the samples: a mail address made from the tenant
    id, no restaurant. *)
Definition sample_embed : Embedding :=
  fun r => (mkUserColumns (user_id r ++ "@example.com") "{}", None).

(** The upgrade page as it is first shown: the monthly plan selected. *)
Definition page_idle : UpgradePage.PageState :=
  UpgradePage.mkPageState "monthly" false "" None.

(** The world with the clock moved to [t] and nothing else changed. *)
Definition at_time (w : World) (t : Timestamp) : World :=
  {| clock := t; table := table w; outage := outage w;
     mint := mint w; console := console w |}.

(** Rows listed newest first: no row is followed by one created later. *)
Definition newest_first (rows : list Subscription) : Prop :=
  StronglySorted (fun x y => created_at y <= created_at x) rows.

(** ** Plan catalog: features *)

Ltac string_cases p :=
  repeat match goal with
         | |- context [ String.eqb p ?s ] =>
             destruct (String.eqb_spec p s); subst; simpl; try discriminate
         end.

Lemma getPlanFeatures_unrecognized (planType : string) :
  ~ In planType PLAN_TYPES ->
  getPlanFeatures planType = getTrialFeatures.
Proof.
  intros Hout. unfold getPlanFeatures.
  string_cases planType; try reflexivity;
    exfalso; apply Hout; unfold PLAN_TYPES; simpl; tauto.
Qed.

(** C3. The feature function is defined on every string: trial gives
    ceilings 100 and 1 with no capability; monthly gives unlimited ceilings
    (the sentinel -1) with analytics and priority support only; semiannual
    and annual add custom branding and API access; an identifier outside
    the four plan types gives the trial set. *)
Theorem getPlanFeatures_catalog :
  getPlanFeatures "trial" = mkPlanFeatures 100 1 false false false false /\
  getPlanFeatures "monthly" = mkPlanFeatures (-1) (-1) true true false false /\
  getPlanFeatures "semiannual" = mkPlanFeatures (-1) (-1) true true true true /\
  getPlanFeatures "annual" = mkPlanFeatures (-1) (-1) true true true true /\
  (forall planType : string,
      ~ In planType PLAN_TYPES ->
      getPlanFeatures planType = getPlanFeatures "trial").
Proof.
  repeat split; try reflexivity.
  intros planType Hout. now rewrite getPlanFeatures_unrecognized.
Qed.

Lemma getPlanFeatures_catalog_witness :
  ~ In "enterprise" PLAN_TYPES /\
  getPlanFeatures "enterprise" = getPlanFeatures "trial".
Proof.
  assert (H : ~ In "enterprise" PLAN_TYPES).
  { unfold PLAN_TYPES; simpl; intros [H | [H | [H | [H | []]]]]; discriminate. }
  split; [exact H |].
  exact (proj2 (proj2 (proj2 (proj2 getPlanFeatures_catalog))) "enterprise" H).
Defined.

(** C10. Whatever string is given, the feature set has custom branding
    exactly when it has API access. *)
Theorem getPlanFeatures_branding_eq_api (planType : string) :
  customBranding (getPlanFeatures planType)
  = apiAccess (getPlanFeatures planType).
Proof.
  unfold getPlanFeatures.
  destruct (planType =? "trial")%string; [reflexivity |].
  destruct ((planType =? "monthly") || (planType =? "semiannual")
            || (planType =? "annual"))%string; reflexivity.
Qed.

(** ** Creation *)

Lemma periodEnd_duration (planType : string) (now : Timestamp) :
  periodEnd planType now = now + catalogDurationDays planType * DAY.
Proof.
  unfold periodEnd, catalogDurationDays, DAY.
  string_cases planType; lia.
Qed.

Lemma createSubscription_ok (w : World) (userId planType : string)
    (ssid scid : option string) :
  outage w = None ->
  createSubscription userId planType ssid scid w
  = (Returned (Some (created_row w userId planType ssid scid)),
     with_table w (table w ++ [created_row w userId planType ssid scid])).
Proof.
  intros Hup.
  unfold createSubscription, try_catch, bind, new_Date,
    insert_select_single, query.
  rewrite Hup. reflexivity.
Qed.

(** C2. On a working store, creation returns and appends a row whose
    period starts at the clock reading, whose status is active and whose
    period ends one catalog duration later: 30 days for trial and monthly,
    180 for semiannual, 365 for annual, 30 for any other identifier; the
    end is therefore after the start. *)
Theorem createSubscription_period (w : World) (userId planType : string)
    (ssid scid : option string) :
  outage w = None ->
  exists sub : Subscription,
    createSubscription userId planType ssid scid w
    = (Returned (Some sub), with_table w (table w ++ [sub])) /\
    user_id sub = userId /\
    plan_type sub = planType /\
    current_period_start sub = clock w /\
    status sub = "active" /\
    current_period_end sub = clock w + catalogDurationDays planType * DAY /\
    (planType = "trial" \/ planType = "monthly" ->
     current_period_end sub - current_period_start sub = 30 * DAY) /\
    (planType = "semiannual" ->
     current_period_end sub - current_period_start sub = 180 * DAY) /\
    (planType = "annual" ->
     current_period_end sub - current_period_start sub = 365 * DAY) /\
    (~ In planType PLAN_TYPES ->
     current_period_end sub - current_period_start sub = 30 * DAY) /\
    current_period_end sub > current_period_start sub.
Proof.
  intros Hup.
  exists (created_row w userId planType ssid scid).
  split; [now apply createSubscription_ok |].
  cbn [created_row user_id plan_type current_period_start status
       current_period_end].
  rewrite periodEnd_duration.
  repeat split.
  - intros [-> | ->]; unfold catalogDurationDays, DAY; simpl; lia.
  - intros ->; unfold catalogDurationDays, DAY; simpl; lia.
  - intros ->; unfold catalogDurationDays, DAY; simpl; lia.
  - intros Hout. unfold catalogDurationDays, DAY.
    string_cases planType; try lia;
      exfalso; apply Hout; unfold PLAN_TYPES; simpl; tauto.
  - unfold catalogDurationDays, DAY. string_cases planType; lia.
Qed.

Lemma createSubscription_period_witness :
  outage world_up = None /\
  exists sub : Subscription,
    fst (createSubscription "bob" "semiannual" None None world_up)
    = Returned (Some sub) /\
    current_period_end sub - current_period_start sub = 180 * DAY.
Proof.
  split; [reflexivity |].
  destruct (createSubscription_period world_up "bob" "semiannual" None None
              eq_refl)
    as (sub & Hrun & _ & _ & _ & _ & _ & _ & H180 & _).
  exists sub. rewrite Hrun. split; [reflexivity | now apply H180].
Defined.

(** ** Lookup of the current subscription *)

Lemma maybeSingle_limit_1 (rows : list Subscription) :
  maybeSingle (firstn 1 rows) = mkResponse (hd_error rows) None.
Proof. destruct rows as [| r rest]; reflexivity. Qed.

Lemma filter_none {A} (p : A -> bool) (l : list A) :
  (forall x, In x l -> p x = false) -> filter p l = [].
Proof.
  induction l as [| a l IH]; intros Hall; simpl; [reflexivity |].
  rewrite (Hall a (or_introl eq_refl)).
  apply IH. intros x Hx. apply Hall. now right.
Qed.

Lemma In_insert_desc (r x : Subscription) (l : list Subscription) :
  In x (insert_desc r l) -> x = r \/ In x l.
Proof.
  induction l as [| y l IH]; simpl.
  - intros [<- | []]. now left.
  - destruct (created_at r <? created_at y); simpl.
    + intros [<- | H]; [right; now left |].
      destruct (IH H) as [-> | Hin]; [now left | right; now right].
    + intros [<- | [<- | H]]; [now left | right; now left | right; now right].
Qed.

Lemma In_order_created_at_desc (x : Subscription) (l : list Subscription) :
  In x (order_created_at_desc l) -> In x l.
Proof.
  induction l as [| y l IH]; simpl; [tauto |].
  intros H. destruct (In_insert_desc _ _ _ H) as [-> | Hin].
  - now left.
  - right. now apply IH.
Qed.

(** What the lookup does in each condition of the store. *)
Lemma getUserSubscription_run (userId : string) (w : World) :
  getUserSubscription userId w =
  match outage w with
  | None =>
      (Returned
         (hd_error
            (order_created_at_desc
               (filter (fun r => (user_id r =? userId)%string) (table w)))),
       w)
  | Some (ErrorResponse e) =>
      if (code e =? "PGRST116")%string then (Returned None, w)
      else (Returned None, logged "Error fetching user subscription:" e w)
  | Some (Rejection e) =>
      (Returned None, logged "Error fetching user subscription:" e w)
  end.
Proof.
  unfold getUserSubscription, try_catch, bind, select_latest_of_user, query.
  destruct (outage w) as [[e | e] |].
  - cbn. destruct (code e =? "PGRST116")%string; reflexivity.
  - reflexivity.
  - rewrite maybeSingle_limit_1. reflexivity.
Qed.

Lemma getUserSubscription_found (userId : string) (w : World)
    (sub : Subscription) :
  fst (getUserSubscription userId w) = Returned (Some sub) ->
  getUserSubscription userId w = (Returned (Some sub), w) /\
  In sub (table w) /\ user_id sub = userId.
Proof.
  rewrite getUserSubscription_run.
  destruct (outage w) as [[e | e] |].
  - destruct (code e =? "PGRST116")%string; discriminate.
  - discriminate.
  - cbn [fst]. intros H. injection H as H. rewrite H. split; [reflexivity |].
    assert (Hin : In sub
              (filter (fun r => (user_id r =? userId)%string) (table w))).
    { apply In_order_created_at_desc.
      destruct (order_created_at_desc _) as [| r rest]; [discriminate |].
      injection H as ->. now left. }
    apply filter_In in Hin. destruct Hin as [Hin Hu].
    split; [exact Hin | now apply String.eqb_eq].
Qed.

Lemma getUserSubscription_never_throws (userId : string) (w : World) :
  exists (found : option Subscription) (w' : World),
    getUserSubscription userId w = (Returned found, w') /\
    table w' = table w /\ clock w' = clock w /\ outage w' = outage w.
Proof.
  rewrite getUserSubscription_run.
  destruct (outage w) as [[e | e] |] eqn:Hout;
    [destruct (code e =? "PGRST116")%string | |];
    eexists; eexists; (split; [reflexivity | ]);
    repeat split; exact Hout.
Qed.

Lemma getUserSubscription_fault (userId : string) (w : World) (f : Fault) :
  outage w = Some f ->
  fst (getUserSubscription userId w) = Returned None.
Proof.
  intros Hf. rewrite getUserSubscription_run, Hf.
  destruct f as [e | e]; [destruct (code e =? "PGRST116")%string |];
    reflexivity.
Qed.

(** ** Access evaluation *)

Lemma Math_ceil_div_pos (x y : Z) :
  0 < y -> Math_ceil_div x y = - ((- x) / y).
Proof.
  intros Hy. unfold Math_ceil_div, Qceiling, Qfloor.
  destruct y as [| p | p]; try lia.
  cbn. now rewrite Z.mul_1_r.
Qed.

(** The quotient rounded up is the least whole number of [y]s covering
    [x]. *)
Lemma Math_ceil_div_bounds (x y : Z) :
  0 < y ->
  (Math_ceil_div x y - 1) * y < x <= Math_ceil_div x y * y.
Proof.
  intros Hy. rewrite Math_ceil_div_pos by exact Hy.
  pose proof (Z.div_mod (- x) y ltac:(lia)) as Hdm.
  pose proof (Z.mod_pos_bound (- x) y Hy) as Hb.
  nia.
Qed.

Lemma Math_ceil_div_unique (x y n : Z) :
  0 < y -> (n - 1) * y < x <= n * y -> Math_ceil_div x y = n.
Proof.
  intros Hy Hn. pose proof (Math_ceil_div_bounds x y Hy) as Hc. nia.
Qed.

(** The decision for a resolved subscription at clock reading [now]. *)
Lemma checkSubscriptionAccess_found (userId : string) (w : World)
    (sub : Subscription) :
  fst (getUserSubscription userId w) = Returned (Some sub) ->
  checkSubscriptionAccess userId w =
  (Returned
     {| hasAccess :=
          (status sub =? "active")%string
          && (current_period_end sub >? clock w);
        subscription := Some sub;
        features := getPlanFeatures (plan_type sub);
        daysRemaining :=
          Some (Z.max 0 (Math_ceil_div (current_period_end sub - clock w)
                           DAY)) |},
   w).
Proof.
  intros Hfound.
  destruct (getUserSubscription_found _ _ _ Hfound) as (Hrun & _ & _).
  unfold checkSubscriptionAccess, try_catch, bind.
  rewrite Hrun. cbn [new_Date ret].
  change (1000 * 60 * 60 * 24) with DAY.
  do 4 f_equal.
  destruct (Z.gtb_spec (Math_ceil_div (current_period_end sub - clock w) DAY)
              0); lia.
Qed.

Lemma checkSubscriptionAccess_not_found (userId : string) (w : World) :
  fst (getUserSubscription userId w) = Returned None ->
  checkSubscriptionAccess userId w
  = (Returned noSubscription, snd (getUserSubscription userId w)).
Proof.
  intros Hnone.
  unfold checkSubscriptionAccess, try_catch, bind.
  destruct (getUserSubscription userId w) as [c w'].
  cbn [fst] in Hnone. subst c. reflexivity.
Qed.

(** C1. When the lookup resolves to a record, the decision grants access
    exactly when the status is active and the period end is strictly after
    the clock reading; a cancelled, expired or past-due record is refused
    whatever its period end, an active record whose period end is not in
    the future is refused, and the world (table included) is left as it
    was. *)
Theorem checkSubscriptionAccess_hasAccess (userId : string) (w : World)
    (sub : Subscription) :
  fst (getUserSubscription userId w) = Returned (Some sub) ->
  exists d : AccessDecision,
    checkSubscriptionAccess userId w = (Returned d, w) /\
    subscription d = Some sub /\
    (hasAccess d = true <->
     status sub = "active" /\ current_period_end sub > clock w) /\
    (status sub = "cancelled" \/ status sub = "expired"
     \/ status sub = "past_due" -> hasAccess d = false) /\
    (current_period_end sub <= clock w -> hasAccess d = false).
Proof.
  intros Hfound. eexists.
  split; [exact (checkSubscriptionAccess_found _ _ _ Hfound) |].
  cbn [subscription hasAccess].
  split; [reflexivity |]. split; [| split].
  - rewrite andb_true_iff, String.eqb_eq, Z.gtb_gt. tauto.
  - intros [-> | [-> | ->]]; reflexivity.
  - intros Hpast.
    destruct (Z.gtb_spec (current_period_end sub) (clock w)); [lia |].
    apply andb_false_r.
Qed.

Lemma checkSubscriptionAccess_hasAccess_witness :
  fst (getUserSubscription "alice" world_up) = Returned (Some row_a2) /\
  exists d : AccessDecision,
    checkSubscriptionAccess "alice" world_up = (Returned d, world_up) /\
    hasAccess d = true.
Proof.
  assert (H : fst (getUserSubscription "alice" world_up)
              = Returned (Some row_a2)) by reflexivity.
  split; [exact H |].
  destruct (checkSubscriptionAccess_hasAccess "alice" world_up row_a2 H)
    as (d & Hrun & _ & Hiff & _).
  exists d. split; [exact Hrun |].
  apply Hiff. split; [reflexivity | reflexivity].
Defined.

(** C4. Evaluation always returns a decision and never throws, and it
    leaves the table alone.  With a working store and no row of the tenant
    the decision is: no access, no subscription, trial features.  With a
    store in trouble, in either manner, the decision is that same one. *)
Theorem checkSubscriptionAccess_total (userId : string) (w : World) :
  (exists (d : AccessDecision) (w' : World),
      checkSubscriptionAccess userId w = (Returned d, w') /\
      table w' = table w) /\
  (outage w = None ->
   (forall r, In r (table w) -> user_id r <> userId) ->
   checkSubscriptionAccess userId w
   = (Returned (mkAccessDecision false None (getPlanFeatures "trial") None),
      w)) /\
  (forall f : Fault,
      outage w = Some f ->
      fst (checkSubscriptionAccess userId w)
      = Returned (mkAccessDecision false None (getPlanFeatures "trial") None)).
Proof.
  split; [| split].
  - destruct (getUserSubscription_never_throws userId w)
      as (found & w' & Hrun & Htable & _).
    destruct found as [sub |].
    + exists
        {| hasAccess :=
             (status sub =? "active")%string
             && (current_period_end sub >? clock w);
           subscription := Some sub;
           features := getPlanFeatures (plan_type sub);
           daysRemaining :=
             Some (Z.max 0 (Math_ceil_div (current_period_end sub - clock w)
                              DAY)) |}, w.
      split; [| reflexivity].
      apply checkSubscriptionAccess_found. now rewrite Hrun.
    + exists noSubscription, w'. split; [| exact Htable].
      rewrite checkSubscriptionAccess_not_found by now rewrite Hrun.
      now rewrite Hrun.
  - intros Hup Hnone.
    assert (Hrun : getUserSubscription userId w = (Returned None, w)).
    { rewrite getUserSubscription_run, Hup.
      rewrite filter_none; [reflexivity |].
      intros r Hr. apply String.eqb_neq. now apply Hnone. }
    rewrite checkSubscriptionAccess_not_found by now rewrite Hrun.
    now rewrite Hrun.
  - intros f Hf.
    rewrite checkSubscriptionAccess_not_found
      by now apply (getUserSubscription_fault userId w f).
    reflexivity.
Qed.

Lemma checkSubscriptionAccess_total_witness :
  (outage world_up = None /\
   (forall r, In r (table world_up) -> user_id r <> "carol") /\
   checkSubscriptionAccess "carol" world_up
   = (Returned (mkAccessDecision false None (getPlanFeatures "trial") None),
      world_up)) /\
  (outage world_down = Some (ErrorResponse connection_lost) /\
   fst (checkSubscriptionAccess "alice" world_down)
   = Returned (mkAccessDecision false None (getPlanFeatures "trial") None)).
Proof.
  assert (Hnone : forall r, In r (table world_up) -> user_id r <> "carol").
  { intros r [<- | [<- | [<- | []]]]; discriminate. }
  split.
  - split; [reflexivity |]. split; [exact Hnone |].
    exact (proj1 (proj2 (checkSubscriptionAccess_total "carol" world_up))
             eq_refl Hnone).
  - split; [reflexivity |].
    exact (proj2 (proj2 (checkSubscriptionAccess_total "alice" world_down))
             (ErrorResponse connection_lost) eq_refl).
Defined.

(** C5. When the lookup resolves to a record, the decision carries the
    number [n] of days with [(n - 1) days < periodEnd - now <= n days],
    that is the quotient rounded up, replaced by 0 when it is negative; it
    is never negative.  A period that ended ten days ago gives 0; an active
    record ending exactly one day ahead gives access and 1. *)
Theorem checkSubscriptionAccess_daysRemaining (userId : string) (w : World)
    (sub : Subscription) :
  fst (getUserSubscription userId w) = Returned (Some sub) ->
  exists (d : AccessDecision) (n : Z),
    fst (checkSubscriptionAccess userId w) = Returned d /\
    (n - 1) * DAY < current_period_end sub - clock w <= n * DAY /\
    daysRemaining d = Some (Z.max 0 n) /\
    0 <= Z.max 0 n /\
    (current_period_end sub = clock w - 10 * DAY ->
     daysRemaining d = Some 0) /\
    (status sub = "active" ->
     current_period_end sub = clock w + DAY ->
     hasAccess d = true /\ daysRemaining d = Some 1).
Proof.
  intros Hfound.
  assert (Hday : 0 < DAY) by reflexivity.
  eexists. exists (Math_ceil_div (current_period_end sub - clock w) DAY).
  rewrite (checkSubscriptionAccess_found _ _ _ Hfound).
  cbn [fst daysRemaining hasAccess].
  split; [reflexivity |].
  split; [now apply Math_ceil_div_bounds |].
  split; [reflexivity |].
  split; [lia |].
  split.
  - intros Hend.
    rewrite (Math_ceil_div_unique _ DAY (-10) Hday) by lia.
    reflexivity.
  - intros Hactive Hend.
    rewrite (Math_ceil_div_unique _ DAY 1 Hday) by lia.
    rewrite Hactive.
    assert (Hgt : current_period_end sub > clock w) by lia.
    apply Z.gtb_gt in Hgt. rewrite Hgt. split; reflexivity.
Qed.

Lemma checkSubscriptionAccess_daysRemaining_witness :
  fst (getUserSubscription "bob" world_up) = Returned (Some row_b1) /\
  exists d : AccessDecision,
    fst (checkSubscriptionAccess "bob" world_up) = Returned d /\
    daysRemaining d = Some 20.
Proof.
  assert (H : fst (getUserSubscription "bob" world_up)
              = Returned (Some row_b1)) by reflexivity.
  split; [exact H |].
  destruct (checkSubscriptionAccess_daysRemaining "bob" world_up row_b1 H)
    as (d & n & Hrun & Hn & Hdays & _).
  exists d. split; [exact Hrun |].
  rewrite Hdays. f_equal.
  change (current_period_end row_b1 - clock world_up) with (20 * DAY) in Hn.
  unfold DAY in Hn. lia.
Defined.

(** C8, as stated: every decision carries a non-negative day count.  It
    fails for a tenant without a row, and for any tenant while the store
    is in trouble: the decision returned has no such field. *)
Lemma daysRemaining_absent_without_subscription :
  fst (checkSubscriptionAccess "alice" world_empty)
  = Returned (mkAccessDecision false None getTrialFeatures None) /\
  fst (checkSubscriptionAccess "alice" world_down)
  = Returned (mkAccessDecision false None getTrialFeatures None) /\
  ~ (forall (userId : string) (w : World),
        exists (d : AccessDecision) (n : Z),
          fst (checkSubscriptionAccess userId w) = Returned d /\
          daysRemaining d = Some n /\ 0 <= n).
Proof.
  split; [reflexivity |]. split; [reflexivity |].
  intros Hall.
  destruct (Hall "alice" world_empty) as (d & n & Hrun & Hdays & _).
  cbv in Hrun. injection Hrun as <-. discriminate Hdays.
Qed.

(** C8, amended. Every evaluation returns a decision; one that resolved a
    subscription carries a day count that is not negative, and one without
    a subscription (no row, or a store in trouble) carries no day count. *)
Theorem checkSubscriptionAccess_daysRemaining_presence (userId : string)
    (w : World) :
  exists d : AccessDecision,
    fst (checkSubscriptionAccess userId w) = Returned d /\
    match subscription d with
    | Some _ => exists n : Z, daysRemaining d = Some n /\ 0 <= n
    | None => daysRemaining d = None
    end.
Proof.
  destruct (getUserSubscription_never_throws userId w)
    as (found & w' & Hrun & _).
  destruct found as [sub |].
  - eexists.
    rewrite (checkSubscriptionAccess_found userId w sub) by now rewrite Hrun.
    split; [reflexivity |]. cbn [subscription daysRemaining].
    eexists. split; [reflexivity | lia].
  - exists noSubscription.
    rewrite checkSubscriptionAccess_not_found by now rewrite Hrun.
    split; reflexivity.
Qed.

(** ** Fleet statistics *)

Lemma count_eqb_occurrences (f : Subscription -> string) (v : string)
    (rows : list Subscription) :
  length (filter (fun s => (f s =? v)%string) rows)
  = occurrences v (map f rows).
Proof.
  unfold occurrences.
  induction rows as [| r rows IH]; simpl; [reflexivity |].
  destruct (String.eqb_spec (f r) v) as [Heq | Hne];
    destruct (string_dec (f r) v) as [Heq' | Hne']; try contradiction;
    simpl; now rewrite IH.
Qed.

Lemma count_neqb_others (f : Subscription -> string) (v : string)
    (rows : list Subscription) :
  length (filter (fun s => negb (f s =? v)%string) rows)
  = others v (map f rows).
Proof.
  unfold others.
  induction rows as [| r rows IH]; simpl; [reflexivity |].
  destruct (String.eqb_spec (f r) v) as [Heq | Hne];
    destruct (string_dec (f r) v) as [Heq' | Hne']; try contradiction;
    simpl; now rewrite IH.
Qed.

(** *** Signs in binary64 rounding *)

Lemma shr_1_nonneg (mrs : shr_record) :
  0 <= shr_m mrs -> 0 <= shr_m (shr_1 mrs).
Proof.
  destruct mrs as [m r s]. cbn [shr_m]. intros Hm.
  destruct m as [| p | p]; [| destruct p | lia]; cbn; lia.
Qed.

Lemma iter_shr_1_nonneg (p : positive) (mrs : shr_record) :
  0 <= shr_m mrs -> 0 <= shr_m (iter_pos shr_1 p mrs).
Proof.
  revert mrs. induction p as [p IH | p IH |]; intros mrs Hm; cbn [iter_pos].
  - apply IH, IH. now apply shr_1_nonneg.
  - now apply IH, IH.
  - now apply shr_1_nonneg.
Qed.

Lemma shr_fexp_nonneg (prec emax m e : Z) (l : location) :
  0 <= m -> 0 <= shr_m (fst (shr_fexp prec emax m e l)).
Proof.
  intros Hm. unfold shr_fexp, shr.
  assert (Hstart : 0 <= shr_m (shr_record_of_loc m l))
    by (destruct l as [| []]; exact Hm).
  destruct (fexp prec emax (Zdigits2 m + e) - e) as [| p | p]; cbn [fst];
    [exact Hstart | now apply iter_shr_1_nonneg | exact Hstart].
Qed.

Lemma round_nearest_even_nonneg (m : Z) (l : location) :
  0 <= m -> 0 <= round_nearest_even m l.
Proof.
  intros Hm. destruct l as [| []]; cbn; try lia.
  destruct (Z.even m); lia.
Qed.

(** Rounding a non-negative mantissa yields a zero, a finite number or an
    infinity of the sign asked for, never NaN. *)
Lemma binary_round_aux_not_negative (prec emax mx ex : Z) (lx : location) :
  0 <= mx -> sf_not_negative (binary_round_aux prec emax false mx ex lx).
Proof.
  intros Hm. unfold binary_round_aux.
  pose proof (shr_fexp_nonneg prec emax mx ex lx Hm) as H1.
  destruct (shr_fexp prec emax mx ex lx) as [mrs' e']. cbn [fst] in H1.
  pose proof (shr_fexp_nonneg prec emax
                (round_nearest_even (shr_m mrs') (loc_of_shr_record mrs'))
                e' loc_Exact
                (round_nearest_even_nonneg _ _ H1)) as H2.
  destruct (shr_fexp prec emax
              (round_nearest_even (shr_m mrs') (loc_of_shr_record mrs'))
              e' loc_Exact) as [mrs'' e''].
  cbn [fst] in H2.
  destruct (shr_m mrs'') as [| p | p]; [exact I | | lia].
  destruct (e'' <=? emax - prec); exact I.
Qed.

Lemma SFadd_not_negative (prec emax : Z) (x y : spec_float) :
  sf_not_negative x -> sf_not_negative y ->
  sf_not_negative (SFadd prec emax x y).
Proof.
  destruct x as [[] | [] | | [] mx ex]; cbn [sf_not_negative];
    try contradiction; intros _;
    destruct y as [[] | [] | | [] my ey]; cbn [sf_not_negative];
    try contradiction; intros _; try exact I.
  cbn [SFadd cond_Zopp]. cbn [Z.add binary_normalize].
  unfold binary_round.
  destruct (shl_align _ _ _) as [mz ez].
  apply binary_round_aux_not_negative. lia.
Qed.

Lemma add_not_negative (x y : float) :
  not_negative x -> not_negative y -> not_negative (x + y)%float.
Proof.
  unfold not_negative. rewrite FloatAxioms.add_spec.
  apply SFadd_not_negative.
Qed.

(** [x || 0] leaves such a double as it is. *)
Lemma or_0_not_negative (x : float) : not_negative x -> or_0 x = x.
Proof.
  unfold not_negative, or_0, PrimFloat.is_zero, PrimFloat.is_nan.
  rewrite !FloatAxioms.eqb_spec.
  change (Prim2SF zero) with (S754_zero false).
  intros Hx. destruct (Prim2SF x) as [[] | [] | | [] m e] eqn:Hsf;
    cbn [sf_not_negative] in Hx; try contradiction.
  - cbn. rewrite <- (SF2Prim_Prim2SF x), Hsf. reflexivity.
  - reflexivity.
  - unfold SFeqb. cbn [SFcompare].
    rewrite Z.compare_refl.
    change (Pos.compare_cont Eq m m) with (Pos.compare m m).
    rewrite Pos.compare_refl. reflexivity.
Qed.

Lemma amounts_not_negative (rows : list Subscription) :
  Forall not_negative (amounts rows).
Proof.
  unfold amounts. induction rows as [| r rows IH]; cbn [flat_map];
    [constructor |].
  apply Forall_app. split; [| exact IH].
  destruct (plan_type r =? "monthly")%string;
    [repeat constructor; exact I |].
  destruct (plan_type r =? "semiannual")%string;
    [repeat constructor; exact I |].
  destruct (plan_type r =? "annual")%string;
    repeat constructor; exact I.
Qed.

Lemma fold_add_not_negative (l : list float) (acc : float) :
  not_negative acc -> Forall not_negative l ->
  not_negative (fold_left PrimFloat.add l acc).
Proof.
  revert acc. induction l as [| a l IH]; intros acc Hacc Hl; cbn [fold_left];
    [exact Hacc |].
  inversion Hl as [| ? ? Ha Hrest]; subst.
  apply IH; [now apply add_not_negative | exact Hrest].
Qed.

Lemma running_sum_not_negative (rows : list Subscription) :
  not_negative (running_sum (amounts rows)).
Proof.
  apply fold_add_not_negative; [exact I | apply amounts_not_negative].
Qed.

(** The [reduce] of the code is the left-to-right sum of the amounts. *)
Lemma reduce_add_price (rows : list Subscription) (acc : float) :
  fold_left add_price rows acc = fold_left PrimFloat.add (amounts rows) acc.
Proof.
  revert acc. induction rows as [| r rows IH]; intros acc; [reflexivity |].
  cbn [fold_left amounts flat_map]. fold (amounts rows).
  rewrite fold_left_app, IH. unfold add_price.
  destruct (plan_type r =? "monthly")%string; [reflexivity |].
  destruct (plan_type r =? "semiannual")%string; [reflexivity |].
  destruct (plan_type r =? "annual")%string; reflexivity.
Qed.

Lemma getSubscriptionStats_ok (w : World) :
  outage w = None ->
  getSubscriptionStats w =
  (Returned
     {| total := length (table w);
        active :=
          length (filter (fun s => (status s =? "active")%string) (table w));
        trial :=
          length (filter (fun s => (plan_type s =? "trial")%string)
                    (table w));
        paid :=
          length (filter (fun s => negb (plan_type s =? "trial")%string)
                    (table w));
        revenue := running_sum (amounts (table w));
        churnRate :=
          if (0 <? length (table w))%nat
          then (Number_of_count
                  (length (filter
                             (fun s => (status s =? "cancelled")%string)
                             (table w)))
                / Number_of_count (length (table w)) * 100)%float
          else 0%float |},
   w).
Proof.
  intros Hup.
  unfold getSubscriptionStats, try_catch, bind, select_all, query.
  rewrite Hup. cbn [error data ret length_or_0 count_or_0].
  rewrite reduce_add_price.
  fold (running_sum (amounts (table w))).
  rewrite or_0_not_negative by apply running_sum_not_negative.
  reflexivity.
Qed.

Lemma getSubscriptionStats_fault (w : World) (f : Fault) :
  outage w = Some f ->
  getSubscriptionStats w
  = (Returned zeroStats,
     logged "Error fetching subscription stats:" (fault_error f) w).
Proof.
  intros Hf.
  unfold getSubscriptionStats, try_catch, bind, select_all, query.
  rewrite Hf. destruct f; reflexivity.
Qed.

(** C6, as stated: the revenue is the sum of the flat prices and the churn
    rate is 100 times cancelled over total, as numbers.  It fails on ten
    rows (five annual, three monthly, two trial), where the code returns
    108.91999999999997 and the prices add up to 108.92, and on
    twenty-five rows with seven cancelled, where the code returns
    28.000000000000004 and 100 * 7 / 25 is 28. *)
Lemma getSubscriptionStats_not_exact :
  fst (getSubscriptionStats world_ten)
  = Returned (mkSubscriptionStats 10 8 2 8 108.91999999999997 20) /\
  (sumQ (map (fun s => price (plan_type s)) (table world_ten)) == 108.92)%Q /\
  ~ exactly 108.91999999999997 108.92 /\
  (exists st : SubscriptionStats,
      fst (getSubscriptionStats world_quarter) = Returned st /\
      total st = 25%nat /\
      occurrences "cancelled" (map status (table world_quarter)) = 7%nat /\
      churnRate st = 28.000000000000004%float) /\
  (100 * QofN 7 / QofN 25 == 28)%Q /\
  ~ exactly 28.000000000000004 28 /\
  ~ (forall w : World,
        outage w = None ->
        exists st : SubscriptionStats,
          fst (getSubscriptionStats w) = Returned st /\
          exactly (revenue st)
            (sumQ (map (fun s => price (plan_type s)) (table w))) /\
          exactly (churnRate st)
            (if (total st =? 0)%nat then 0
             else 100 * QofN (occurrences "cancelled" (map status (table w)))
                  / QofN (total st))).
Proof.
  assert (Hrev : ~ exactly 108.91999999999997 108.92).
  { unfold exactly. vm_compute. discriminate. }
  assert (Hchurn : ~ exactly 28.000000000000004 28).
  { unfold exactly. vm_compute. discriminate. }
  split; [reflexivity |]. split; [reflexivity |]. split; [exact Hrev |].
  split; [eexists; repeat split |].
  split; [reflexivity |]. split; [exact Hchurn |].
  intros Hall.
  destruct (Hall world_quarter eq_refl) as (st & Hrun & _ & Hc).
  vm_compute in Hrun. injection Hrun as <-.
  apply Hchurn. unfold exactly in Hc |- *. cbn [churnRate] in Hc.
  destruct (exact 28.000000000000004) as [r |]; [| exact Hc].
  rewrite Hc. vm_compute. reflexivity.
Qed.

(** C6, amended. On a working store the statistics are: the number of
    rows; the number of rows whose status is active; the number whose
    plan is trial; the number whose plan is anything else; the sum in
    double precision, taken row by row in table order from 0, of the flat
    prices (2.99 monthly, 9.99 semiannual, 19.99 annual, no term for any
    other row); and cancelled over total times 100, each operation in
    double precision, or 0 when there is no row.  An empty table gives
    zeros throughout, and so does a store in trouble, without an error. *)
Theorem getSubscriptionStats_population (w : World) :
  (outage w = None ->
   exists st : SubscriptionStats,
     getSubscriptionStats w = (Returned st, w) /\
     total st = length (table w) /\
     active st = occurrences "active" (map status (table w)) /\
     trial st = occurrences "trial" (map plan_type (table w)) /\
     paid st = others "trial" (map plan_type (table w)) /\
     revenue st = running_sum (amounts (table w)) /\
     churnRate st
     = if (total st =? 0)%nat then 0%float
       else (Number_of_count
               (occurrences "cancelled" (map status (table w)))
             / Number_of_count (total st) * 100)%float) /\
  (outage w = None -> table w = [] ->
   getSubscriptionStats w = (Returned (mkSubscriptionStats 0 0 0 0 0 0), w)) /\
  (forall f : Fault,
      outage w = Some f ->
      fst (getSubscriptionStats w)
      = Returned (mkSubscriptionStats 0 0 0 0 0 0)).
Proof.
  split; [| split].
  - intros Hup. eexists. split; [now apply getSubscriptionStats_ok |].
    cbn [total active trial paid revenue churnRate].
    rewrite (count_eqb_occurrences status "active").
    rewrite (count_eqb_occurrences status "cancelled").
    rewrite (count_eqb_occurrences plan_type "trial").
    rewrite (count_neqb_others plan_type "trial").
    repeat (split; [reflexivity |]).
    destruct (length (table w)); reflexivity.
  - intros Hup Hempty.
    rewrite getSubscriptionStats_ok by exact Hup.
    rewrite Hempty. reflexivity.
  - intros f Hf. now rewrite (getSubscriptionStats_fault w f Hf).
Qed.

Lemma getSubscriptionStats_population_witness :
  (outage world_ten = None /\
   exists st : SubscriptionStats,
     getSubscriptionStats world_ten = (Returned st, world_ten) /\
     total st = 10%nat /\ active st = 8%nat /\
     trial st = 2%nat /\ paid st = 8%nat /\
     revenue st = 108.91999999999997%float /\ churnRate st = 20%float) /\
  (outage world_empty = None /\ table world_empty = [] /\
   getSubscriptionStats world_empty
   = (Returned (mkSubscriptionStats 0 0 0 0 0 0), world_empty)) /\
  (outage world_unreachable = Some (Rejection (mkJsError "" "fetch failed")) /\
   fst (getSubscriptionStats world_unreachable)
   = Returned (mkSubscriptionStats 0 0 0 0 0 0)).
Proof.
  split; [| split].
  - split; [reflexivity |].
    destruct (proj1 (getSubscriptionStats_population world_ten) eq_refl)
      as (st & Hrun & Htotal & Hactive & Htrial & Hpaid & Hrev & Hchurn).
    exists st. split; [exact Hrun |].
    split; [exact Htotal |]. split; [exact Hactive |].
    split; [exact Htrial |]. split; [exact Hpaid |].
    split.
    + rewrite Hrev. reflexivity.
    + rewrite Hchurn, Htotal. reflexivity.
  - split; [reflexivity |]. split; [reflexivity |].
    exact (proj1 (proj2 (getSubscriptionStats_population world_empty))
             eq_refl eq_refl).
  - split; [reflexivity |].
    exact (proj2 (proj2 (getSubscriptionStats_population world_unreachable))
             _ eq_refl).
Defined.

(** ** Store failures *)

Lemma createSubscription_fault (w : World) (f : Fault)
    (userId planType : string) (ssid scid : option string) :
  outage w = Some f ->
  createSubscription userId planType ssid scid w
  = (Thrown (fault_error f),
     logged "Error creating subscription:" (fault_error f) w).
Proof.
  intros Hf.
  unfold createSubscription, try_catch, bind, new_Date,
    insert_select_single, query.
  rewrite Hf. destruct f; reflexivity.
Qed.

Lemma updateSubscriptionStatus_fault (w : World) (f : Fault)
    (subscriptionId newStatus : string) :
  outage w = Some f ->
  updateSubscriptionStatus subscriptionId newStatus w
  = (Thrown (fault_error f),
     logged "Error updating subscription status:" (fault_error f) w).
Proof.
  intros Hf.
  unfold updateSubscriptionStatus, try_catch, bind, new_Date,
    update_eq_id, query.
  rewrite Hf. destruct f; reflexivity.
Qed.

(** C7. While the store is in trouble, creation and status transition
    both throw the store's error to the caller and write nothing, whereas
    the lookup returns [null] and does not throw. *)
Theorem store_failure_by_operation (w : World) (f : Fault) :
  outage w = Some f ->
  (forall (userId planType : string) (ssid scid : option string),
      exists w' : World,
        createSubscription userId planType ssid scid w
        = (Thrown (fault_error f), w') /\ table w' = table w) /\
  (forall subscriptionId newStatus : string,
      exists w' : World,
        updateSubscriptionStatus subscriptionId newStatus w
        = (Thrown (fault_error f), w') /\ table w' = table w) /\
  (forall userId : string,
      exists w' : World,
        getUserSubscription userId w = (Returned None, w') /\
        table w' = table w).
Proof.
  intros Hf. split; [| split].
  - intros userId planType ssid scid. eexists.
    split; [now apply createSubscription_fault | reflexivity].
  - intros subscriptionId newStatus. eexists.
    split; [now apply updateSubscriptionStatus_fault | reflexivity].
  - intros userId.
    destruct (getUserSubscription_never_throws userId w)
      as (found & w' & Hrun & Htable & _).
    pose proof (getUserSubscription_fault userId w f Hf) as Hnone.
    rewrite Hrun in Hnone. cbn [fst] in Hnone. injection Hnone as ->.
    exists w'. split; [exact Hrun | exact Htable].
Qed.

Lemma store_failure_by_operation_witness :
  outage world_down = Some (ErrorResponse connection_lost) /\
  fst (createSubscription "alice" "annual" None None world_down)
  = Thrown connection_lost /\
  fst (updateSubscriptionStatus "a2" "cancelled" world_down)
  = Thrown connection_lost /\
  fst (getUserSubscription "alice" world_down) = Returned None.
Proof.
  split; [reflexivity |].
  destruct (store_failure_by_operation world_down
              (ErrorResponse connection_lost) eq_refl)
    as (Hcreate & Hupdate & Hlookup).
  split; [| split].
  - destruct (Hcreate "alice" "annual" None None) as (w' & Hrun & _).
    now rewrite Hrun.
  - destruct (Hupdate "a2" "cancelled") as (w' & Hrun & _).
    now rewrite Hrun.
  - destruct (Hlookup "alice") as (w' & Hrun & _).
    now rewrite Hrun.
Defined.

(** ** Status transition *)

Lemma updateSubscriptionStatus_ok (w : World)
    (subscriptionId newStatus : string) :
  outage w = None ->
  updateSubscriptionStatus subscriptionId newStatus w
  = (Returned tt,
     with_table w
       (map (fun r =>
               if (id r =? subscriptionId)%string
               then assign_all r [Set_status newStatus;
                                  Set_updated_at (clock w)]
               else r)
          (table w))).
Proof.
  intros Hup.
  unfold updateSubscriptionStatus, try_catch, bind, new_Date,
    update_eq_id, query.
  rewrite Hup. reflexivity.
Qed.

(** C9. On a working store, a transition to any status string returns
    normally, whatever the status was before.  The table keeps its rows in
    place; in each row with the given id the status is the new one and
    [updated_at] is the clock reading; the id, owner, plan type, period
    bounds, external references and creation stamp of every row are what
    they were, and rows with another id are untouched. *)
Theorem updateSubscriptionStatus_frame (w : World)
    (subscriptionId newStatus : string) :
  outage w = None ->
  exists w' : World,
    updateSubscriptionStatus subscriptionId newStatus w = (Returned tt, w') /\
    length (table w') = length (table w) /\
    forall (n : nat) (r : Subscription),
      nth_error (table w) n = Some r ->
      exists r' : Subscription,
        nth_error (table w') n = Some r' /\
        id r' = id r /\
        user_id r' = user_id r /\
        plan_type r' = plan_type r /\
        stripe_subscription_id r' = stripe_subscription_id r /\
        stripe_customer_id r' = stripe_customer_id r /\
        current_period_start r' = current_period_start r /\
        current_period_end r' = current_period_end r /\
        created_at r' = created_at r /\
        (id r = subscriptionId ->
         status r' = newStatus /\ updated_at r' = clock w) /\
        (id r <> subscriptionId -> r' = r).
Proof.
  intros Hup. eexists.
  split; [now apply updateSubscriptionStatus_ok |].
  cbn [with_table table].
  split; [apply length_map |].
  intros n r Hn. rewrite nth_error_map, Hn. cbn [option_map].
  eexists. split; [reflexivity |].
  destruct (String.eqb_spec (id r) subscriptionId) as [Hid | Hid].
  - cbn [assign_all fold_left assign id user_id plan_type status
         stripe_subscription_id stripe_customer_id current_period_start
         current_period_end created_at updated_at].
    do 8 (split; [reflexivity |]).
    split; [intros _; split; reflexivity | intros Hne; contradiction].
  - do 8 (split; [reflexivity |]).
    split; [intros Heq; contradiction | intros _; reflexivity].
Qed.

Lemma updateSubscriptionStatus_frame_witness :
  outage world_up = None /\
  exists (w' : World) (r' : Subscription),
    updateSubscriptionStatus "b1" "active" world_up = (Returned tt, w') /\
    nth_error (table w') 2 = Some r' /\
    status r' = "active" /\
    updated_at r' = 60 * DAY /\
    plan_type r' = "trial" /\
    current_period_end r' = 80 * DAY.
Proof.
  split; [reflexivity |].
  destruct (updateSubscriptionStatus_frame world_up "b1" "active" eq_refl)
    as (w' & Hrun & _ & Hrows).
  destruct (Hrows 2%nat row_b1 eq_refl)
    as (r' & Hnth & _ & _ & Hplan & _ & _ & _ & Hend & _ & Hhit & _).
  destruct (Hhit eq_refl) as (Hstatus & Hstamp).
  exists w', r'.
  split; [exact Hrun |]. split; [exact Hnth |].
  split; [exact Hstatus |]. split; [exact Hstamp |].
  split; [exact Hplan | exact Hend].
Defined.


(** * Further properties of the code *)

(** ** Ordering by creation time *)

Lemma insert_desc_perm (r : Subscription) (l : list Subscription) :
  Permutation (insert_desc r l) (r :: l).
Proof.
  induction l as [| x l IH]; simpl; [apply Permutation_refl |].
  destruct (created_at r <? created_at x).
  - eapply perm_trans; [apply perm_skip, IH | apply perm_swap].
  - apply Permutation_refl.
Qed.

Lemma order_created_at_desc_perm (l : list Subscription) :
  Permutation (order_created_at_desc l) l.
Proof.
  induction l as [| x l IH]; simpl; [apply perm_nil |].
  eapply perm_trans; [apply insert_desc_perm | now apply perm_skip].
Qed.

Lemma insert_desc_sorted (r : Subscription) (l : list Subscription) :
  newest_first l -> newest_first (insert_desc r l).
Proof.
  unfold newest_first. intros Hs.
  induction Hs as [| x l Hs IH Hx]; simpl.
  - constructor; constructor.
  - destruct (Z.ltb_spec (created_at r) (created_at x)) as [Hlt | Hge].
    + constructor; [exact IH |].
      apply Forall_forall. intros y Hy.
      destruct (In_insert_desc _ _ _ Hy) as [-> | Hin]; [lia |].
      rewrite Forall_forall in Hx. now apply Hx.
    + constructor; [now constructor |].
      constructor; [exact Hge |].
      rewrite Forall_forall in Hx |- *. intros y Hy.
      specialize (Hx y Hy). lia.
Qed.

Lemma order_created_at_desc_sorted (l : list Subscription) :
  newest_first (order_created_at_desc l).
Proof.
  induction l as [| x l IH]; simpl; [constructor |].
  now apply insert_desc_sorted.
Qed.

Lemma newest_first_head (x : Subscription) (l : list Subscription) :
  newest_first (x :: l) ->
  forall y, In y (x :: l) -> created_at y <= created_at x.
Proof.
  unfold newest_first. intros Hs y [<- | Hy]; [lia |].
  apply StronglySorted_inv in Hs. destruct Hs as [_ Hx].
  rewrite Forall_forall in Hx. now apply Hx.
Qed.

(** ** More on the lookup *)

(** X1. A record the lookup resolves is a row of the table, belongs to
    the tenant asked for, and no row of that tenant was created later. *)
Theorem getUserSubscription_latest (userId : string) (w : World)
    (sub : Subscription) :
  fst (getUserSubscription userId w) = Returned (Some sub) ->
  In sub (table w) /\
  user_id sub = userId /\
  forall r : Subscription,
    In r (table w) -> user_id r = userId -> created_at r <= created_at sub.
Proof.
  intros Hfound.
  destruct (getUserSubscription_found _ _ _ Hfound) as (_ & Hin & Hu).
  split; [exact Hin |]. split; [exact Hu |].
  intros r Hr Hru.
  rewrite getUserSubscription_run in Hfound.
  destruct (outage w) as [[e | e] |];
    [destruct (code e =? "PGRST116")%string; discriminate
    | discriminate |].
  cbn [fst] in Hfound. injection Hfound as Hhd.
  set (mine := filter (fun r0 => (user_id r0 =? userId)%string) (table w))
    in Hhd.
  pose proof (order_created_at_desc_sorted mine) as Hsorted.
  assert (Hrm : In r (order_created_at_desc mine)).
  { apply (Permutation_in r (Permutation_sym
                               (order_created_at_desc_perm mine))).
    apply filter_In. split; [exact Hr | now apply String.eqb_eq]. }
  destruct (order_created_at_desc mine) as [| top rest];
    [discriminate |].
  injection Hhd as ->.
  now apply (newest_first_head sub rest Hsorted).
Qed.

Lemma getUserSubscription_latest_witness :
  fst (getUserSubscription "alice" world_up) = Returned (Some row_a2) /\
  created_at row_a1 <= created_at row_a2.
Proof.
  assert (H : fst (getUserSubscription "alice" world_up)
              = Returned (Some row_a2)) by reflexivity.
  split; [exact H |].
  apply (proj2 (proj2 (getUserSubscription_latest "alice" world_up row_a2 H))).
  - left. reflexivity.
  - reflexivity.
Defined.

(** X2. On a working store the lookup resolves to a record exactly when
    the table holds a row of the tenant. *)
Theorem getUserSubscription_resolves_iff (userId : string) (w : World) :
  outage w = None ->
  ((exists sub, fst (getUserSubscription userId w) = Returned (Some sub))
   <-> exists r, In r (table w) /\ user_id r = userId).
Proof.
  intros Hup. split.
  - intros (sub & Hfound).
    destruct (getUserSubscription_found _ _ _ Hfound) as (_ & Hin & Hu).
    now exists sub.
  - intros (r & Hr & Hu).
    rewrite getUserSubscription_run, Hup. cbn [fst].
    set (mine := filter (fun r0 => (user_id r0 =? userId)%string) (table w)).
    assert (Hrm : In r (order_created_at_desc mine)).
    { apply (Permutation_in r (Permutation_sym
                                 (order_created_at_desc_perm mine))).
      apply filter_In. split; [exact Hr | now apply String.eqb_eq]. }
    destruct (order_created_at_desc mine) as [| top rest]; [destruct Hrm |].
    now exists top.
Qed.

Lemma getUserSubscription_resolves_iff_witness :
  outage world_up = None /\
  exists sub, fst (getUserSubscription "bob" world_up) = Returned (Some sub).
Proof.
  split; [reflexivity |].
  apply (proj2 (getUserSubscription_resolves_iff "bob" world_up eq_refl)).
  exists row_b1. split; [| reflexivity].
  right. right. left. reflexivity.
Defined.

(** ** More on access evaluation *)

Lemma getUserSubscription_depends (userId : string) (w1 w2 : World) :
  table w1 = table w2 -> outage w1 = outage w2 ->
  fst (getUserSubscription userId w1) = fst (getUserSubscription userId w2).
Proof.
  intros Ht Ho. rewrite !getUserSubscription_run, <- Ht, <- Ho.
  destruct (outage w1) as [[e | e] |];
    [destruct (code e =? "PGRST116")%string | |]; reflexivity.
Qed.

Lemma checkSubscriptionAccess_world (userId : string) (w : World) :
  snd (checkSubscriptionAccess userId w)
  = snd (getUserSubscription userId w).
Proof.
  destruct (getUserSubscription_never_throws userId w)
    as (found & w' & Hrun & _).
  destruct found as [sub |].
  - assert (Hfound : fst (getUserSubscription userId w)
                     = Returned (Some sub)) by now rewrite Hrun.
    rewrite (checkSubscriptionAccess_found _ _ _ Hfound).
    destruct (getUserSubscription_found _ _ _ Hfound) as (Hrun' & _).
    now rewrite Hrun'.
  - rewrite checkSubscriptionAccess_not_found by now rewrite Hrun.
    reflexivity.
Qed.

Lemma checkSubscriptionAccess_depends (userId : string) (w1 w2 : World) :
  clock w1 = clock w2 -> table w1 = table w2 -> outage w1 = outage w2 ->
  fst (checkSubscriptionAccess userId w1)
  = fst (checkSubscriptionAccess userId w2).
Proof.
  intros Hc Ht Ho.
  pose proof (getUserSubscription_depends userId w1 w2 Ht Ho) as Hsame.
  destruct (getUserSubscription_never_throws userId w1)
    as (found & w' & Hrun & _).
  destruct found as [sub |].
  - assert (H1 : fst (getUserSubscription userId w1)
                 = Returned (Some sub)) by now rewrite Hrun.
    assert (H2 : fst (getUserSubscription userId w2)
                 = Returned (Some sub)) by now rewrite <- Hsame.
    rewrite (checkSubscriptionAccess_found _ _ _ H1).
    rewrite (checkSubscriptionAccess_found _ _ _ H2).
    now rewrite Hc.
  - assert (H1 : fst (getUserSubscription userId w1) = Returned None)
      by now rewrite Hrun.
    assert (H2 : fst (getUserSubscription userId w2) = Returned None)
      by now rewrite <- Hsame.
    rewrite !checkSubscriptionAccess_not_found by assumption.
    reflexivity.
Qed.

Lemma getUserSubscription_world (userId : string) (w : World) :
  snd (getUserSubscription userId w) = w \/
  exists f : Fault,
    outage w = Some f /\
    snd (getUserSubscription userId w)
    = logged "Error fetching user subscription:" (fault_error f) w.
Proof.
  rewrite getUserSubscription_run.
  destruct (outage w) as [[e | e] |] eqn:Hout.
  - destruct (code e =? "PGRST116")%string; [now left |].
    right. now exists (ErrorResponse e).
  - right. now exists (Rejection e).
  - now left.
Qed.

(** X3. An evaluation leaves clock, table, store condition and id
    generator as they were.  It writes nothing to the console, or, with
    the store in trouble, the single line of the lookup; the label of its
    own [catch] block is never written. *)
Theorem checkSubscriptionAccess_console (userId : string) (w : World) :
  clock (snd (checkSubscriptionAccess userId w)) = clock w /\
  table (snd (checkSubscriptionAccess userId w)) = table w /\
  outage (snd (checkSubscriptionAccess userId w)) = outage w /\
  mint (snd (checkSubscriptionAccess userId w)) = mint w /\
  (console (snd (checkSubscriptionAccess userId w)) = console w \/
   exists f : Fault,
     outage w = Some f /\
     console (snd (checkSubscriptionAccess userId w))
     = ("Error fetching user subscription:", fault_error f) :: console w).
Proof.
  rewrite checkSubscriptionAccess_world.
  destruct (getUserSubscription_world userId w) as [-> | (f & Hf & ->)].
  - repeat split; try reflexivity. now left.
  - repeat split; try reflexivity. right. now exists f.
Qed.

(** X4. An evaluation has no influence on later ones, for the same
    tenant or another: whatever the clock reads when the later evaluation
    runs, its decision is what it would have been had the earlier call not
    taken place. *)
Theorem checkSubscriptionAccess_no_influence (first second : string)
    (w : World) (t : Timestamp) :
  fst (checkSubscriptionAccess second
         (at_time (snd (checkSubscriptionAccess first w)) t))
  = fst (checkSubscriptionAccess second (at_time w t)).
Proof.
  apply checkSubscriptionAccess_depends; cbn [at_time clock table outage];
    try reflexivity;
    rewrite checkSubscriptionAccess_world;
    destruct (getUserSubscription_world first w) as [-> | (f & _ & ->)];
    reflexivity.
Qed.

(** X5. Access is granted exactly when the decision carries an active
    subscription and a day count of at least one. *)
Theorem hasAccess_iff_active_with_days (userId : string) (w : World)
    (d : AccessDecision) :
  fst (checkSubscriptionAccess userId w) = Returned d ->
  (hasAccess d = true <->
   exists (sub : Subscription) (n : Z),
     subscription d = Some sub /\ status sub = "active" /\
     daysRemaining d = Some n /\ 1 <= n).
Proof.
  intros Hrun.
  assert (Hday : 0 < DAY) by reflexivity.
  destruct (getUserSubscription_never_throws userId w)
    as (found & w' & Hget & _).
  destruct found as [sub |].
  - rewrite (checkSubscriptionAccess_found userId w sub) in Hrun
      by now rewrite Hget.
    cbn [fst] in Hrun. injection Hrun as <-.
    cbn [hasAccess subscription daysRemaining].
    pose proof (Math_ceil_div_bounds (current_period_end sub - clock w) DAY
                  Hday) as Hb.
    rewrite andb_true_iff, String.eqb_eq, Z.gtb_gt.
    split.
    + intros [Hactive Hend]. exists sub. eexists.
      repeat split; [exact Hactive | nia].
    + intros (sub' & n & Hsub & Hactive & Hn & Hpos).
      injection Hsub as <-. injection Hn as <-.
      split; [exact Hactive | nia].
  - rewrite checkSubscriptionAccess_not_found in Hrun by now rewrite Hget.
    cbn [fst] in Hrun. injection Hrun as <-.
    split; [discriminate |].
    intros (sub' & n & Hsub & _). discriminate Hsub.
Qed.

Lemma hasAccess_iff_active_with_days_witness :
  exists d : AccessDecision,
    fst (checkSubscriptionAccess "alice" world_up) = Returned d /\
    hasAccess d = true.
Proof.
  eexists. split; [reflexivity |].
  apply (proj2 (hasAccess_iff_active_with_days "alice" world_up _ eq_refl)).
  exists row_a2, 345. repeat split. discriminate.
Defined.

(** X6. The feature set of a decision follows the plan of the resolved
    subscription alone, whether access is granted or not: a semiannual or
    annual subscription that is cancelled or past its period still
    reports every capability, and a decision without subscription reports
    the trial set. *)
Theorem features_follow_plan (userId : string) (w : World)
    (d : AccessDecision) :
  fst (checkSubscriptionAccess userId w) = Returned d ->
  features d
  = match subscription d with
    | Some sub => getPlanFeatures (plan_type sub)
    | None => getPlanFeatures "trial"
    end /\
  (forall sub : Subscription,
      subscription d = Some sub ->
      plan_type sub = "semiannual" \/ plan_type sub = "annual" ->
      features d = mkPlanFeatures (-1) (-1) true true true true).
Proof.
  intros Hrun.
  destruct (getUserSubscription_never_throws userId w)
    as (found & w' & Hget & _).
  destruct found as [sub |].
  - rewrite (checkSubscriptionAccess_found userId w sub) in Hrun
      by now rewrite Hget.
    cbn [fst] in Hrun. injection Hrun as <-.
    cbn [features subscription]. split; [reflexivity |].
    intros sub' Hsub [Hplan | Hplan]; injection Hsub as <-;
      now rewrite Hplan.
  - rewrite checkSubscriptionAccess_not_found in Hrun by now rewrite Hget.
    cbn [fst] in Hrun. injection Hrun as <-.
    split; [reflexivity |]. intros sub' Hsub. discriminate Hsub.
Qed.

Lemma features_follow_plan_witness :
  exists d : AccessDecision,
    fst (checkSubscriptionAccess "carol" world_lapsed) = Returned d /\
    hasAccess d = false /\
    features d = mkPlanFeatures (-1) (-1) true true true true.
Proof.
  eexists. split; [reflexivity |]. split; [reflexivity |].
  apply (proj2 (features_follow_plan "carol" world_lapsed _ eq_refl) row_c1).
  - reflexivity.
  - right. reflexivity.
Defined.

(** ** Creation followed by evaluation *)

Lemma order_created_at_desc_newest (x : Subscription)
    (l : list Subscription) :
  (forall a, In a l -> created_at a < created_at x) ->
  order_created_at_desc (l ++ [x]) = x :: order_created_at_desc l.
Proof.
  induction l as [| a l IH]; intros Hall; simpl; [reflexivity |].
  rewrite IH by (intros b Hb; apply Hall; now right).
  simpl.
  destruct (Z.ltb_spec (created_at a) (created_at x)) as [_ | Hge];
    [reflexivity |].
  specialize (Hall a (or_introl eq_refl)). lia.
Qed.

Lemma getUserSubscription_after_create (w : World) (userId planType : string)
    (ssid scid : option string) :
  outage w = None ->
  (forall r, In r (table w) -> user_id r = userId -> created_at r < clock w) ->
  getUserSubscription userId
    (snd (createSubscription userId planType ssid scid w))
  = (Returned (Some (created_row w userId planType ssid scid)),
     snd (createSubscription userId planType ssid scid w)).
Proof.
  intros Hup Hold.
  rewrite createSubscription_ok by exact Hup. cbn [snd].
  rewrite getUserSubscription_run. cbn [outage with_table table].
  rewrite Hup. do 2 f_equal.
  rewrite filter_app. cbn [filter created_row user_id].
  rewrite String.eqb_refl.
  rewrite order_created_at_desc_newest; [reflexivity |].
  intros a Ha. apply filter_In in Ha. destruct Ha as [Ha Hu].
  apply String.eqb_eq in Hu. cbn [created_at]. now apply Hold.
Qed.

(** X7. On a working store, when every earlier row of the tenant was
    created before the clock reading, the evaluation that follows a
    creation resolves to the row just created: access is granted, the
    features are those of the chosen plan and the day count is the full
    period, 30, 180 or 365. *)
Theorem create_then_evaluate (w : World) (userId planType : string)
    (ssid scid : option string) :
  outage w = None ->
  (forall r, In r (table w) -> user_id r = userId -> created_at r < clock w) ->
  exists (sub : Subscription) (w1 : World),
    createSubscription userId planType ssid scid w
    = (Returned (Some sub), w1) /\
    getUserSubscription userId w1 = (Returned (Some sub), w1) /\
    checkSubscriptionAccess userId w1
    = (Returned {| hasAccess := true;
                   subscription := Some sub;
                   features := getPlanFeatures planType;
                   daysRemaining := Some (catalogDurationDays planType) |},
       w1).
Proof.
  intros Hup Hold.
  pose proof (getUserSubscription_after_create w userId planType ssid scid
                Hup Hold) as Hget.
  rewrite createSubscription_ok in Hget |- * by exact Hup. cbn [snd] in Hget.
  eexists. eexists. split; [reflexivity |]. split; [exact Hget |].
  rewrite (checkSubscriptionAccess_found userId _
             (created_row w userId planType ssid scid))
    by now rewrite Hget.
  cbn [created_row status current_period_end plan_type with_table clock].
  rewrite periodEnd_duration.
  assert (Hdays : 30 <= catalogDurationDays planType).
  { unfold catalogDurationDays.
    destruct (planType =? "semiannual")%string; [lia |].
    destruct (planType =? "annual")%string; lia. }
  assert (Hday : 0 < DAY) by reflexivity.
  rewrite (Math_ceil_div_unique _ DAY (catalogDurationDays planType) Hday)
    by nia.
  assert (Hgt : clock w + catalogDurationDays planType * DAY > clock w) by nia.
  apply Z.gtb_gt in Hgt. rewrite Hgt.
  rewrite Z.max_r by lia. reflexivity.
Qed.

Lemma create_then_evaluate_witness :
  outage world_up = None /\
  (forall r, In r (table world_up) -> user_id r = "alice" ->
             created_at r < clock world_up) /\
  exists (d : AccessDecision) (w1 : World),
    snd (createSubscription "alice" "monthly" None None world_up) = w1 /\
    fst (checkSubscriptionAccess "alice" w1) = Returned d /\
    hasAccess d = true /\ daysRemaining d = Some 30 /\
    apiAccess (features d) = false.
Proof.
  assert (Hold : forall r, In r (table world_up) -> user_id r = "alice" ->
                           created_at r < clock world_up).
  { intros r [<- | [<- | [<- | []]]] _; reflexivity. }
  split; [reflexivity |]. split; [exact Hold |].
  destruct (create_then_evaluate world_up "alice" "monthly" None None
              eq_refl Hold) as (sub & w1 & Hcreate & _ & Hcheck).
  eexists. exists w1. rewrite Hcreate, Hcheck.
  repeat split.
Defined.

(** ** Status transition followed by evaluation *)

Lemma updateSubscriptionStatus_table (w : World)
    (subscriptionId newStatus : string) :
  outage w = None ->
  updateSubscriptionStatus subscriptionId newStatus w
  = (Returned tt,
     with_table w
       (map (retouched subscriptionId newStatus (clock w)) (table w))).
Proof.
  intros Hup. now rewrite updateSubscriptionStatus_ok.
Qed.

Lemma retouched_keeps (subscriptionId newStatus : string) (now : Timestamp)
    (r : Subscription) :
  id (retouched subscriptionId newStatus now r) = id r /\
  user_id (retouched subscriptionId newStatus now r) = user_id r /\
  plan_type (retouched subscriptionId newStatus now r) = plan_type r /\
  current_period_end (retouched subscriptionId newStatus now r)
  = current_period_end r /\
  created_at (retouched subscriptionId newStatus now r) = created_at r.
Proof.
  unfold retouched.
  destruct (id r =? subscriptionId)%string; repeat split.
Qed.

Lemma filter_map_same {A} (p : A -> bool) (f : A -> A) (l : list A) :
  (forall x, p (f x) = p x) -> filter p (map f l) = map f (filter p l).
Proof.
  intros Hp. induction l as [| a l IH]; simpl; [reflexivity |].
  rewrite Hp. destruct (p a); simpl; now rewrite IH.
Qed.

Lemma insert_desc_map (f : Subscription -> Subscription) (r : Subscription)
    (l : list Subscription) :
  (forall x, created_at (f x) = created_at x) ->
  insert_desc (f r) (map f l) = map f (insert_desc r l).
Proof.
  intros Hf. induction l as [| x l IH]; simpl; [reflexivity |].
  rewrite !Hf. destruct (created_at r <? created_at x); simpl;
    [now rewrite IH | reflexivity].
Qed.

Lemma order_created_at_desc_map (f : Subscription -> Subscription)
    (l : list Subscription) :
  (forall x, created_at (f x) = created_at x) ->
  order_created_at_desc (map f l) = map f (order_created_at_desc l).
Proof.
  intros Hf. induction l as [| x l IH]; simpl; [reflexivity |].
  rewrite IH. now apply insert_desc_map.
Qed.

Lemma hd_error_map {A B} (f : A -> B) (l : list A) :
  hd_error (map f l) = option_map f (hd_error l).
Proof. destruct l; reflexivity. Qed.

(** The lookup after a transition finds the row it found before, as the
    transition left it. *)
Lemma getUserSubscription_after_update (w : World)
    (userId subscriptionId newStatus : string) :
  outage w = None ->
  fst (getUserSubscription userId
         (snd (updateSubscriptionStatus subscriptionId newStatus w)))
  = match fst (getUserSubscription userId w) with
    | Returned found =>
        Returned
          (option_map (retouched subscriptionId newStatus (clock w)) found)
    | Thrown e => Thrown e
    end.
Proof.
  intros Hup.
  rewrite updateSubscriptionStatus_table by exact Hup. cbn [snd].
  rewrite !getUserSubscription_run. cbn [outage with_table table].
  rewrite Hup. cbn [fst].
  rewrite filter_map_same
    by (intros x; now rewrite (proj1 (proj2 (retouched_keeps _ _ _ x)))).
  rewrite order_created_at_desc_map
    by (intros x; apply retouched_keeps).
  now rewrite hd_error_map.
Qed.

(** X8. On a working store a transition for an id no row carries returns
    normally and changes nothing at all. *)
Theorem updateSubscriptionStatus_unknown_id (w : World)
    (subscriptionId newStatus : string) :
  outage w = None ->
  (forall r, In r (table w) -> id r <> subscriptionId) ->
  updateSubscriptionStatus subscriptionId newStatus w = (Returned tt, w).
Proof.
  intros Hup Hnone.
  rewrite updateSubscriptionStatus_table by exact Hup.
  f_equal.
  assert (Hsame : map (retouched subscriptionId newStatus (clock w)) (table w)
                  = table w).
  { rewrite <- (map_id (table w)) at 2.
    apply map_ext_in. intros r Hr. unfold retouched.
    destruct (String.eqb_spec (id r) subscriptionId) as [Heq | _];
      [now apply Hnone in Hr | reflexivity]. }
  rewrite Hsame. destruct w; reflexivity.
Qed.

Lemma updateSubscriptionStatus_unknown_id_witness :
  outage world_up = None /\
  updateSubscriptionStatus "zz" "cancelled" world_up = (Returned tt, world_up).
Proof.
  split; [reflexivity |].
  apply updateSubscriptionStatus_unknown_id; [reflexivity |].
  intros r [<- | [<- | [<- | []]]]; discriminate.
Defined.

(** X9. On a working store, after a transition of the tenant's current
    subscription the lookup resolves to the same row with the new status
    and stamp, and the evaluation grants access exactly when the new
    status is active and the period end is after the clock reading: any
    other status revokes access, and a return to active restores it only
    within the period. *)
Theorem transition_then_evaluate (w : World) (userId newStatus : string)
    (sub : Subscription) :
  outage w = None ->
  fst (getUserSubscription userId w) = Returned (Some sub) ->
  exists (sub' : Subscription) (d : AccessDecision),
    fst (getUserSubscription userId
           (snd (updateSubscriptionStatus (id sub) newStatus w)))
    = Returned (Some sub') /\
    id sub' = id sub /\
    status sub' = newStatus /\
    updated_at sub' = clock w /\
    plan_type sub' = plan_type sub /\
    current_period_end sub' = current_period_end sub /\
    fst (checkSubscriptionAccess userId
           (snd (updateSubscriptionStatus (id sub) newStatus w)))
    = Returned d /\
    subscription d = Some sub' /\
    (hasAccess d = true <->
     newStatus = "active" /\ current_period_end sub > clock w).
Proof.
  intros Hup Hfound.
  pose proof (getUserSubscription_after_update w userId (id sub) newStatus
                Hup) as Hafter.
  rewrite Hfound in Hafter. cbn [option_map] in Hafter.
  set (w1 := snd (updateSubscriptionStatus (id sub) newStatus w)) in *.
  assert (Hclock : clock w1 = clock w).
  { unfold w1. now rewrite updateSubscriptionStatus_table. }
  set (sub' := retouched (id sub) newStatus (clock w) sub) in *.
  assert (Hfields : id sub' = id sub /\ status sub' = newStatus /\
                    updated_at sub' = clock w /\
                    plan_type sub' = plan_type sub /\
                    current_period_end sub' = current_period_end sub).
  { unfold sub', retouched. rewrite String.eqb_refl. repeat split. }
  destruct Hfields as (Hid & Hst & Hstamp & Hplan & Hend).
  exists sub'. eexists.
  split; [exact Hafter |].
  do 5 (split; [assumption |]).
  rewrite (checkSubscriptionAccess_found userId w1 sub' Hafter).
  cbn [fst].
  split; [reflexivity |]. split; [reflexivity |].
  cbn [hasAccess].
  rewrite andb_true_iff, String.eqb_eq, Z.gtb_gt, Hst, Hend, Hclock.
  tauto.
Qed.

Lemma transition_then_evaluate_witness :
  outage world_up = None /\
  fst (getUserSubscription "alice" world_up) = Returned (Some row_a2) /\
  exists d : AccessDecision,
    fst (checkSubscriptionAccess "alice"
           (snd (updateSubscriptionStatus "a2" "past_due" world_up)))
    = Returned d /\
    hasAccess d = false.
Proof.
  split; [reflexivity |]. split; [reflexivity |].
  destruct (transition_then_evaluate world_up "alice" "past_due" row_a2
              eq_refl eq_refl)
    as (sub' & d & _ & _ & _ & _ & _ & _ & Hcheck & _ & Hiff).
  exists d. split; [exact Hcheck |].
  destruct (hasAccess d); [| reflexivity].
  destruct (proj1 Hiff eq_refl) as [Hactive _]. discriminate Hactive.
Defined.

(** X10. On a working store, a transition for another id than that of the
    tenant's current subscription leaves the tenant's decision as it
    was. *)
Theorem transition_elsewhere_keeps_decision (w : World)
    (userId subscriptionId newStatus : string) (sub : Subscription) :
  outage w = None ->
  fst (getUserSubscription userId w) = Returned (Some sub) ->
  id sub <> subscriptionId ->
  fst (checkSubscriptionAccess userId
         (snd (updateSubscriptionStatus subscriptionId newStatus w)))
  = fst (checkSubscriptionAccess userId w).
Proof.
  intros Hup Hfound Hother.
  pose proof (getUserSubscription_after_update w userId subscriptionId
                newStatus Hup) as Hafter.
  rewrite Hfound in Hafter. cbn [option_map] in Hafter.
  assert (Hsame : retouched subscriptionId newStatus (clock w) sub = sub).
  { unfold retouched.
    destruct (String.eqb_spec (id sub) subscriptionId);
      [contradiction | reflexivity]. }
  rewrite Hsame in Hafter.
  rewrite (checkSubscriptionAccess_found _ _ _ Hafter).
  rewrite (checkSubscriptionAccess_found _ _ _ Hfound).
  cbn [fst]. rewrite updateSubscriptionStatus_table by exact Hup.
  reflexivity.
Qed.

Lemma transition_elsewhere_keeps_decision_witness :
  outage world_up = None /\
  fst (getUserSubscription "alice" world_up) = Returned (Some row_a2) /\
  id row_a2 <> "a1" /\
  fst (checkSubscriptionAccess "alice"
         (snd (updateSubscriptionStatus "a1" "active" world_up)))
  = fst (checkSubscriptionAccess "alice" world_up).
Proof.
  assert (Hne : id row_a2 <> "a1") by discriminate.
  split; [reflexivity |]. split; [reflexivity |]. split; [exact Hne |].
  exact (transition_elsewhere_keeps_decision world_up "alice" "a1" "active"
           row_a2 eq_refl eq_refl Hne).
Defined.

(** ** More on the fleet statistics *)

Lemma length_filter_split {A} (p : A -> bool) (l : list A) :
  (length (filter p l) + length (filter (fun x => negb (p x)) l)
   = length l)%nat.
Proof.
  induction l as [| a l IH]; simpl; [reflexivity |].
  destruct (p a); simpl; lia.
Qed.

Lemma length_filter_le {A} (p : A -> bool) (l : list A) :
  (length (filter p l) <= length l)%nat.
Proof.
  induction l as [| a l IH]; simpl; [lia |].
  destruct (p a); simpl; lia.
Qed.

Lemma not_negative_leb (x : float) :
  not_negative x -> (0 <=? x)%float = true.
Proof.
  unfold not_negative. rewrite FloatAxioms.leb_spec.
  change (Prim2SF 0) with (S754_zero false).
  destruct (Prim2SF x) as [[] | [] | | [] m e]; cbn [sf_not_negative];
    try contradiction; reflexivity.
Qed.

(** X11. Whatever the table and the condition of the store, the
    statistics returned satisfy: trial and paid add up to the total,
    active is at most the total, and the revenue is a number that is not
    below zero (so not NaN either). *)
Theorem getSubscriptionStats_invariants (w : World) :
  exists st : SubscriptionStats,
    fst (getSubscriptionStats w) = Returned st /\
    (trial st + paid st = total st)%nat /\
    (active st <= total st)%nat /\
    (0 <=? revenue st)%float = true.
Proof.
  destruct (outage w) as [f |] eqn:Hout.
  - exists zeroStats. rewrite (getSubscriptionStats_fault w f Hout).
    split; [reflexivity |].
    cbn [zeroStats trial paid total active revenue].
    repeat split; lia.
  - eexists. rewrite (getSubscriptionStats_ok w Hout).
    split; [reflexivity |].
    cbn [trial paid total active revenue].
    split; [apply length_filter_split |].
    split; [apply length_filter_le |].
    apply not_negative_leb, running_sum_not_negative.
Qed.



(** ** The administrative listing *)

Lemma getAllSubscriptions_ok (embed : Embedding) (w : World) :
  outage w = None ->
  getAllSubscriptions embed w
  = (Returned
       (map (fun r => mkSubscriptionWithRelations r (fst (embed r))
                        (snd (embed r)))
          (order_created_at_desc (table w))),
     w).
Proof.
  intros Hup.
  unfold getAllSubscriptions, try_catch, bind, select_with_relations_ordered,
    query.
  rewrite Hup. reflexivity.
Qed.

Lemma getAllSubscriptions_fault (embed : Embedding) (w : World) (f : Fault) :
  outage w = Some f ->
  getAllSubscriptions embed w
  = (Returned [],
     logged "Error fetching all subscriptions:" (fault_error f) w).
Proof.
  intros Hf.
  unfold getAllSubscriptions, try_catch, bind, select_with_relations_ordered,
    query.
  rewrite Hf. destruct f; reflexivity.
Qed.

Lemma columns_of_listing (embed : Embedding) (rows : list Subscription) :
  map columns
    (map (fun r => mkSubscriptionWithRelations r (fst (embed r))
                     (snd (embed r))) rows)
  = rows.
Proof.
  rewrite map_map. cbn [columns]. apply map_id.
Qed.

(** X13. The listing never throws and never writes to the table.  On a
    working store it holds every row of the table exactly once, newest
    first, each beside what the store embeds for it; with the store in
    trouble it is empty. *)
Theorem getAllSubscriptions_listing (embed : Embedding) (w : World) :
  (exists (listing : list SubscriptionWithRelations) (w' : World),
      getAllSubscriptions embed w = (Returned listing, w') /\
      table w' = table w) /\
  (outage w = None ->
   exists listing : list SubscriptionWithRelations,
     getAllSubscriptions embed w = (Returned listing, w) /\
     Permutation (map columns listing) (table w) /\
     newest_first (map columns listing) /\
     forall item, In item listing ->
                  (user item, restaurant item) = embed (columns item)) /\
  (forall f : Fault,
      outage w = Some f -> fst (getAllSubscriptions embed w) = Returned []).
Proof.
  split; [| split].
  - destruct (outage w) as [f |] eqn:Hout.
    + rewrite (getAllSubscriptions_fault embed w f Hout).
      eexists. eexists. split; reflexivity.
    + rewrite (getAllSubscriptions_ok embed w Hout).
      eexists. eexists. split; reflexivity.
  - intros Hup. rewrite (getAllSubscriptions_ok embed w Hup).
    eexists. split; [reflexivity |].
    rewrite columns_of_listing.
    split; [apply order_created_at_desc_perm |].
    split; [apply order_created_at_desc_sorted |].
    intros item Hitem. apply in_map_iff in Hitem.
    destruct Hitem as (r & <- & _). cbn [user restaurant columns].
    now destruct (embed r).
  - intros f Hf. now rewrite (getAllSubscriptions_fault embed w f Hf).
Qed.

Lemma getAllSubscriptions_listing_witness :
  (outage world_up = None /\
   exists listing : list SubscriptionWithRelations,
     fst (getAllSubscriptions sample_embed world_up) = Returned listing /\
     map columns listing = [row_b1; row_a2; row_a1] /\
     Permutation (map columns listing) (table world_up)) /\
  (outage world_down = Some (ErrorResponse connection_lost) /\
   fst (getAllSubscriptions sample_embed world_down) = Returned []).
Proof.
  split.
  - split; [reflexivity |].
    destruct (proj1 (proj2 (getAllSubscriptions_listing sample_embed
                              world_up)) eq_refl)
      as (listing & Hrun & Hperm & _).
    exists listing. rewrite Hrun. split; [reflexivity |].
    split; [| exact Hperm].
    cbv in Hrun. injection Hrun as <-. reflexivity.
  - split; [reflexivity |].
    exact (proj2 (proj2 (getAllSubscriptions_listing sample_embed
                           world_down)) _ eq_refl).
Defined.

Lemma hd_error_insert_desc (a : Subscription) (l : list Subscription) :
  hd_error (insert_desc a l)
  = match hd_error l with
    | Some x => if created_at a <? created_at x then Some x else Some a
    | None => Some a
    end.
Proof.
  destruct l as [| x l]; simpl; [reflexivity |].
  destruct (created_at a <? created_at x); reflexivity.
Qed.

Lemma find_insert_desc (p : Subscription -> bool) (a : Subscription)
    (l : list Subscription) :
  newest_first l ->
  find p (insert_desc a l)
  = if p a
    then match find p l with
         | Some x => if created_at a <? created_at x then Some x else Some a
         | None => Some a
         end
    else find p l.
Proof.
  unfold newest_first. intros Hs.
  induction Hs as [| x l Hs IH Hx]; simpl.
  - destruct (p a); reflexivity.
  - destruct (Z.ltb_spec (created_at a) (created_at x)) as [Hlt | Hge].
    + simpl. destruct (p x) eqn:Hpx.
      * destruct (p a); [| reflexivity].
        destruct (Z.ltb_spec (created_at a) (created_at x)); [reflexivity |].
        lia.
      * exact IH.
    + simpl. destruct (p a) eqn:Hpa; [| reflexivity].
      destruct (p x) eqn:Hpx.
      * destruct (Z.ltb_spec (created_at a) (created_at x)); [lia |].
        reflexivity.
      * destruct (find p l) as [y |] eqn:Hfind; [| reflexivity].
        apply find_some in Hfind. destruct Hfind as [Hy _].
        rewrite Forall_forall in Hx. specialize (Hx y Hy).
        destruct (Z.ltb_spec (created_at a) (created_at y)); [lia |].
        reflexivity.
Qed.

Lemma find_order_created_at_desc (p : Subscription -> bool)
    (l : list Subscription) :
  find p (order_created_at_desc l)
  = hd_error (order_created_at_desc (filter p l)).
Proof.
  induction l as [| a l IH]; simpl; [reflexivity |].
  rewrite find_insert_desc by apply order_created_at_desc_sorted.
  destruct (p a); [| exact IH].
  simpl. rewrite hd_error_insert_desc, <- IH. reflexivity.
Qed.

(** X14. On a working store the lookup and the listing agree: the current
    subscription of a tenant is the first row of that tenant in the
    listing, and the lookup finds none exactly when the listing has no row
    of the tenant. *)
Theorem getUserSubscription_first_listed (embed : Embedding)
    (userId : string) (w : World) :
  outage w = None ->
  exists listing : list SubscriptionWithRelations,
    fst (getAllSubscriptions embed w) = Returned listing /\
    fst (getUserSubscription userId w)
    = Returned (find (fun r => (user_id r =? userId)%string)
                  (map columns listing)).
Proof.
  intros Hup. rewrite (getAllSubscriptions_ok embed w Hup).
  eexists. split; [reflexivity |].
  rewrite columns_of_listing, getUserSubscription_run, Hup.
  cbn [fst]. now rewrite find_order_created_at_desc.
Qed.

Lemma getUserSubscription_first_listed_witness :
  outage world_up = None /\
  exists listing : list SubscriptionWithRelations,
    fst (getAllSubscriptions sample_embed world_up) = Returned listing /\
    find (fun r => (user_id r =? "alice")%string) (map columns listing)
    = Some row_a2.
Proof.
  split; [reflexivity |].
  destruct (getUserSubscription_first_listed sample_embed "alice" world_up
              eq_refl) as (listing & Hrun & Hsame).
  exists listing. split; [exact Hrun |].
  change (fst (getUserSubscription "alice" world_up))
    with (@Returned (option Subscription) (Some row_a2)) in Hsame.
  injection Hsame as Hsame. now symmetry.
Defined.

(** ** The dashboard statistics *)

Lemma loadSubscriptionStats_ok (users : nat) (w : World) :
  outage w = None ->
  exists ds : SuperAdminUI.SubscriptionStats,
    SuperAdminUI.loadSubscriptionStats users w = (Returned (Some ds), w) /\
    SuperAdminUI.totalUsers ds = users /\
    SuperAdminUI.activeSubscriptions ds
    = length (filter (fun s => (status s =? "active")%string) (table w)) /\
    SuperAdminUI.trialUsers ds
    = length (filter (fun s => (plan_type s =? "trial")%string
                               && (status s =? "active")%string) (table w)) /\
    SuperAdminUI.paidUsers ds
    = length (filter (fun s => negb (plan_type s =? "trial")%string
                               && (status s =? "active")%string) (table w)) /\
    SuperAdminUI.planDistribution ds
    = SuperAdminUI.mkPlanDistribution
        (length (filter (fun s => (plan_type s =? "trial")%string)
                   (table w)))
        (length (filter (fun s => (plan_type s =? "monthly")%string)
                   (table w)))
        (length (filter (fun s => (plan_type s =? "semiannual")%string)
                   (table w)))
        (length (filter (fun s => (plan_type s =? "annual")%string)
                   (table w))).
Proof.
  intros Hup.
  unfold SuperAdminUI.loadSubscriptionStats, try_catch, bind,
    SuperAdminUI.count_users, select_all, query.
  rewrite Hup. cbv beta iota. rewrite Hup. cbn [data ret].
  eexists. split; [reflexivity |].
  repeat split.
Qed.

Lemma loadSubscriptionStats_fault (users : nat) (w : World) (f : Fault) :
  outage w = Some f ->
  SuperAdminUI.loadSubscriptionStats users w
  = (Returned None,
     match f with
     | ErrorResponse _ => w
     | Rejection e => logged "Error loading subscription stats:" e w
     end).
Proof.
  intros Hf.
  unfold SuperAdminUI.loadSubscriptionStats, try_catch, bind,
    SuperAdminUI.count_users, select_all, query.
  rewrite Hf. destruct f; [| reflexivity].
  cbv beta iota. rewrite Hf. reflexivity.
Qed.

Lemma length_filter_both (p q : Subscription -> bool)
    (l : list Subscription) :
  (length (filter (fun s => p s && q s) l)
   + length (filter (fun s => negb (p s) && q s) l)
   = length (filter q l))%nat.
Proof.
  induction l as [| a l IH]; simpl; [reflexivity |].
  destruct (p a), (q a); simpl; lia.
Qed.

Lemma length_filter_weaker (p q : Subscription -> bool)
    (l : list Subscription) :
  (length (filter (fun s => p s && q s) l) <= length (filter p l))%nat.
Proof.
  induction l as [| a l IH]; simpl; [lia |].
  destruct (p a), (q a); simpl; lia.
Qed.

Lemma plan_distribution_sum (l : list Subscription) :
  (length (filter (fun s => (plan_type s =? "trial")%string) l)
   + length (filter (fun s => (plan_type s =? "monthly")%string) l)
   + length (filter (fun s => (plan_type s =? "semiannual")%string) l)
   + length (filter (fun s => (plan_type s =? "annual")%string) l)
   <= length l)%nat /\
  ((forall r, In r l -> In (plan_type r) PLAN_TYPES) ->
   (length (filter (fun s => (plan_type s =? "trial")%string) l)
    + length (filter (fun s => (plan_type s =? "monthly")%string) l)
    + length (filter (fun s => (plan_type s =? "semiannual")%string) l)
    + length (filter (fun s => (plan_type s =? "annual")%string) l)
    = length l)%nat).
Proof.
  induction l as [| a l [IHle IHeq]]; [split; reflexivity |].
  cbn [filter length].
  split.
  - destruct (String.eqb_spec (plan_type a) "trial") as [-> | _];
      [simpl; lia |].
    destruct (String.eqb_spec (plan_type a) "monthly") as [-> | _];
      [simpl; lia |].
    destruct (String.eqb_spec (plan_type a) "semiannual") as [-> | _];
      [simpl; lia |].
    destruct (String.eqb_spec (plan_type a) "annual") as [_ | _];
      simpl; lia.
  - intros Hall.
    assert (Hrest : forall r, In r l -> In (plan_type r) PLAN_TYPES)
      by (intros r Hr; apply Hall; now right).
    specialize (IHeq Hrest).
    destruct (Hall a (or_introl eq_refl))
      as [<- | [<- | [<- | [<- | []]]]]; simpl; lia.
Qed.

Lemma loadSubscriptionStats_some (users : nat) (w : World)
    (ds : SuperAdminUI.SubscriptionStats) :
  fst (SuperAdminUI.loadSubscriptionStats users w) = Returned (Some ds) ->
  outage w = None.
Proof.
  intros Hrun. destruct (outage w) as [f |] eqn:Hout; [| reflexivity].
  rewrite (loadSubscriptionStats_fault users w f Hout) in Hrun.
  discriminate Hrun.
Qed.

(** X15. The dashboard loader never throws and never writes to the table.
    On a working store it reaches [setStats].  When the store answers with
    an error it does not reach [setStats] and logs nothing, so the numbers
    on screen stay as they were without a trace; when the query rejects it
    does not reach [setStats] and logs one line. *)
Theorem loadSubscriptionStats_outcome (users : nat) (w : World) :
  (outage w = None ->
   exists ds : SuperAdminUI.SubscriptionStats,
     SuperAdminUI.loadSubscriptionStats users w = (Returned (Some ds), w) /\
     SuperAdminUI.totalUsers ds = users) /\
  (forall e : JsError,
      outage w = Some (ErrorResponse e) ->
      SuperAdminUI.loadSubscriptionStats users w = (Returned None, w)) /\
  (forall e : JsError,
      outage w = Some (Rejection e) ->
      SuperAdminUI.loadSubscriptionStats users w
      = (Returned None, logged "Error loading subscription stats:" e w)).
Proof.
  split; [| split].
  - intros Hup.
    destruct (loadSubscriptionStats_ok users w Hup) as (ds & Hrun & Hu & _).
    now exists ds.
  - intros e He. now rewrite (loadSubscriptionStats_fault users w _ He).
  - intros e He. now rewrite (loadSubscriptionStats_fault users w _ He).
Qed.

Lemma loadSubscriptionStats_outcome_witness :
  (outage world_ten = None /\
   exists ds : SuperAdminUI.SubscriptionStats,
     SuperAdminUI.loadSubscriptionStats 7 world_ten
     = (Returned (Some ds), world_ten)) /\
  (outage world_down = Some (ErrorResponse connection_lost) /\
   SuperAdminUI.loadSubscriptionStats 7 world_down
   = (Returned None, world_down)) /\
  (outage world_unreachable = Some (Rejection (mkJsError "" "fetch failed")) /\
   console (snd (SuperAdminUI.loadSubscriptionStats 7 world_unreachable))
   = [("Error loading subscription stats:", mkJsError "" "fetch failed")]).
Proof.
  split; [| split].
  - split; [reflexivity |].
    destruct (proj1 (loadSubscriptionStats_outcome 7 world_ten) eq_refl)
      as (ds & Hrun & _).
    now exists ds.
  - split; [reflexivity |].
    exact (proj1 (proj2 (loadSubscriptionStats_outcome 7 world_down))
             _ eq_refl).
  - split; [reflexivity |].
    rewrite (proj2 (proj2 (loadSubscriptionStats_outcome 7 world_unreachable))
               _ eq_refl).
    reflexivity.
Defined.

(** X16. In the numbers the dashboard shows, trial users and paid users
    add up to the active subscriptions, the trial users are at most the
    trial share of the plan distribution, and the four shares of the plan
    distribution add up to at most the number of rows, to exactly that
    number when every row has one of the four plan types. *)
Theorem loadSubscriptionStats_identities (users : nat) (w : World)
    (ds : SuperAdminUI.SubscriptionStats) :
  fst (SuperAdminUI.loadSubscriptionStats users w) = Returned (Some ds) ->
  (SuperAdminUI.trialUsers ds + SuperAdminUI.paidUsers ds
   = SuperAdminUI.activeSubscriptions ds)%nat /\
  (SuperAdminUI.trialUsers ds
   <= SuperAdminUI.trial (SuperAdminUI.planDistribution ds))%nat /\
  (SuperAdminUI.trial (SuperAdminUI.planDistribution ds)
   + SuperAdminUI.monthly (SuperAdminUI.planDistribution ds)
   + SuperAdminUI.semiannual (SuperAdminUI.planDistribution ds)
   + SuperAdminUI.annual (SuperAdminUI.planDistribution ds)
   <= length (table w))%nat /\
  ((forall r, In r (table w) -> In (plan_type r) PLAN_TYPES) ->
   (SuperAdminUI.trial (SuperAdminUI.planDistribution ds)
    + SuperAdminUI.monthly (SuperAdminUI.planDistribution ds)
    + SuperAdminUI.semiannual (SuperAdminUI.planDistribution ds)
    + SuperAdminUI.annual (SuperAdminUI.planDistribution ds)
    = length (table w))%nat).
Proof.
  intros Hrun.
  pose proof (loadSubscriptionStats_some users w ds Hrun) as Hup.
  destruct (loadSubscriptionStats_ok users w Hup)
    as (ds' & Hrun' & _ & Ha & Ht & Hp & Hd).
  rewrite Hrun' in Hrun. cbn [fst] in Hrun. injection Hrun as <-.
  rewrite Ha, Ht, Hp, Hd.
  cbn [SuperAdminUI.trial SuperAdminUI.monthly SuperAdminUI.semiannual
       SuperAdminUI.annual].
  split; [apply length_filter_both |].
  split; [apply length_filter_weaker |].
  apply plan_distribution_sum.
Qed.

Lemma loadSubscriptionStats_identities_witness :
  exists ds : SuperAdminUI.SubscriptionStats,
    fst (SuperAdminUI.loadSubscriptionStats 7 world_ten) = Returned (Some ds) /\
    (SuperAdminUI.trialUsers ds + SuperAdminUI.paidUsers ds
     = SuperAdminUI.activeSubscriptions ds)%nat /\
    SuperAdminUI.activeSubscriptions ds = 8%nat.
Proof.
  eexists. split; [reflexivity |].
  split; [| reflexivity].
  exact (proj1 (loadSubscriptionStats_identities 7 world_ten _ eq_refl)).
Defined.

(** X17. On a working store the dashboard and the service read the same
    table and agree on the active count and on the number of trial rows,
    while the dashboard's trial and paid users, which count active rows
    only, are at most the service's trial and paid counts. *)
Theorem dashboard_versus_service (users : nat) (w : World) :
  outage w = None ->
  exists (st : SubscriptionStats) (ds : SuperAdminUI.SubscriptionStats),
    fst (getSubscriptionStats w) = Returned st /\
    fst (SuperAdminUI.loadSubscriptionStats users w) = Returned (Some ds) /\
    SuperAdminUI.activeSubscriptions ds = active st /\
    SuperAdminUI.trial (SuperAdminUI.planDistribution ds) = trial st /\
    (SuperAdminUI.trialUsers ds <= trial st)%nat /\
    (SuperAdminUI.paidUsers ds <= paid st)%nat.
Proof.
  intros Hup.
  destruct (loadSubscriptionStats_ok users w Hup)
    as (ds & Hrun & _ & Ha & Ht & Hp & Hd).
  eexists. exists ds.
  rewrite (getSubscriptionStats_ok w Hup), Hrun.
  split; [reflexivity |]. split; [reflexivity |].
  cbn [active trial paid].
  rewrite Ha, Ht, Hp, Hd.
  cbn [SuperAdminUI.trial].
  split; [reflexivity |]. split; [reflexivity |].
  split; [apply length_filter_weaker |].
  apply (length_filter_weaker
           (fun s => negb (plan_type s =? "trial")%string)).
Qed.

Lemma dashboard_versus_service_witness :
  outage world_lapsed = None /\
  exists (st : SubscriptionStats) (ds : SuperAdminUI.SubscriptionStats),
    fst (getSubscriptionStats world_lapsed) = Returned st /\
    fst (SuperAdminUI.loadSubscriptionStats 2 world_lapsed)
    = Returned (Some ds) /\
    SuperAdminUI.paidUsers ds = 0%nat /\ paid st = 2%nat.
Proof.
  split; [reflexivity |].
  destruct (dashboard_versus_service 2 world_lapsed eq_refl)
    as (st & ds & Hst & Hds & _).
  exists st, ds. split; [exact Hst |]. split; [exact Hds |].
  vm_compute in Hst, Hds. injection Hst as <-. injection Hds as <-.
  split; reflexivity.
Defined.

(** ** The upgrade page *)

Lemma checkSubscriptionAccess_cases (userId : string) (w : World)
    (d : AccessDecision) :
  fst (checkSubscriptionAccess userId w) = Returned d ->
  d = noSubscription \/
  exists sub : Subscription,
    d = {| hasAccess :=
             (status sub =? "active")%string
             && (current_period_end sub >? clock w);
           subscription := Some sub;
           features := getPlanFeatures (plan_type sub);
           daysRemaining :=
             Some (Z.max 0 (Math_ceil_div (current_period_end sub - clock w)
                              DAY)) |}.
Proof.
  intros Hrun.
  destruct (getUserSubscription_never_throws userId w)
    as (found & w' & Hget & _).
  destruct found as [sub |].
  - rewrite (checkSubscriptionAccess_found userId w sub) in Hrun
      by now rewrite Hget.
    cbn [fst] in Hrun. injection Hrun as <-. right. now exists sub.
  - rewrite checkSubscriptionAccess_not_found in Hrun by now rewrite Hget.
    cbn [fst] in Hrun. injection Hrun as <-. now left.
Qed.

(** X18. On the card of the upgrade page, whenever the badge reads
    "Active" the line beside it reads "n days remaining" with n at least
    one, never "Expired"; and for a decision without subscription the card
    reads plan "Trial", line "Expired" and badge "Expired". *)
Theorem upgrade_card_texts (userId : string) (w : World)
    (d : AccessDecision) :
  fst (checkSubscriptionAccess userId w) = Returned d ->
  (UpgradePage.badge d = "Active" ->
   exists n : Z,
     1 <= n /\
     UpgradePage.remainingLine d
     = NilEmpty.string_of_int (Z.to_int n) ++ " days remaining") /\
  (subscription d = None ->
   UpgradePage.currentPlan d = "Trial" /\
   UpgradePage.remainingLine d = "Expired" /\
   UpgradePage.badge d = "Expired").
Proof.
  intros Hrun.
  assert (Hday : 0 < DAY) by reflexivity.
  destruct (checkSubscriptionAccess_cases userId w d Hrun)
    as [-> | (sub & ->)].
  - split; [discriminate |]. intros _. repeat split.
  - split; [| discriminate].
    unfold UpgradePage.badge, UpgradePage.remainingLine.
    cbn [hasAccess daysRemaining].
    destruct ((status sub =? "active")%string
              && (current_period_end sub >? clock w)) eqn:Hacc;
      [| discriminate].
    intros _. apply andb_true_iff in Hacc. destruct Hacc as [_ Hend].
    apply Z.gtb_gt in Hend.
    pose proof (Math_ceil_div_bounds (current_period_end sub - clock w) DAY
                  Hday) as Hb.
    set (n := Math_ceil_div (current_period_end sub - clock w) DAY) in *.
    assert (Hn : 1 <= n) by nia.
    exists n. split; [exact Hn |].
    rewrite Z.max_r by lia.
    destruct (Z.gtb_spec n 0); [reflexivity | lia].
Qed.

Lemma upgrade_card_texts_witness :
  exists d : AccessDecision,
    fst (checkSubscriptionAccess "alice" world_up) = Returned d /\
    UpgradePage.badge d = "Active" /\
    UpgradePage.remainingLine d = "345 days remaining" /\
    UpgradePage.currentPlan d = "annual".
Proof.
  eexists. split; [reflexivity |]. split; [reflexivity |].
  split; [| reflexivity].
  destruct (proj1 (upgrade_card_texts "alice" world_up _ eq_refl) eq_refl)
    as (n & _ & Hline).
  reflexivity.
Defined.

(** X19. The upgrade handler never throws and always ends with the
    "upgrading" flag off.  Without a signed-in user it does nothing.  On a
    working store it appends one active row of the selected plan for the
    user, whatever rows the user already has and leaving them in place,
    with the period starting when the timer has fired, and navigates to
    the dashboard.  With the store in trouble it shows the failure text,
    does not navigate and writes no row. *)
Theorem handleUpgrade_outcome (userId : string) (elapsed : Z)
    (st : UpgradePage.PageState) (w : World) :
  UpgradePage.handleUpgrade None elapsed st w = (Returned st, w) /\
  (outage w = None ->
   exists (sub : Subscription) (w' : World),
     UpgradePage.handleUpgrade (Some userId) elapsed st w
     = (Returned
          (UpgradePage.mkPageState (UpgradePage.selectedPlan st) false ""
             (Some ("/dashboard", "Subscription upgraded successfully!"))),
        w') /\
     table w' = (table w ++ [sub])%list /\
     user_id sub = userId /\
     plan_type sub = UpgradePage.selectedPlan st /\
     status sub = "active" /\
     stripe_subscription_id sub = None /\
     stripe_customer_id sub = None /\
     current_period_start sub = clock w + elapsed /\
     current_period_end sub
     = periodEnd (UpgradePage.selectedPlan st) (clock w + elapsed)) /\
  (forall f : Fault,
      outage w = Some f ->
      exists w' : World,
        UpgradePage.handleUpgrade (Some userId) elapsed st w
        = (Returned
             (UpgradePage.mkPageState (UpgradePage.selectedPlan st) false
                "Failed to upgrade subscription. Please try again or contact support."
                (UpgradePage.navigated st)),
           w') /\
        table w' = table w).
Proof.
  split; [reflexivity |]. split.
  - intros Hup.
    unfold UpgradePage.handleUpgrade, bind, try_catch.
    rewrite getUserSubscription_run, Hup.
    cbn [UpgradePage.sleep UpgradePage.selectedPlan].
    rewrite createSubscription_ok by exact Hup.
    cbn [ret UpgradePage.selectedPlan UpgradePage.errorText
         UpgradePage.navigated].
    eexists. eexists. split; [reflexivity |].
    cbn [with_table table created_row user_id plan_type status
         stripe_subscription_id stripe_customer_id current_period_start
         current_period_end clock].
    repeat split.
  - intros f Hf.
    unfold UpgradePage.handleUpgrade, bind, try_catch.
    destruct (getUserSubscription_never_throws userId w)
      as (found & w1 & Hget & Htable & _ & Hout).
    rewrite Hget. cbn [UpgradePage.sleep UpgradePage.selectedPlan].
    rewrite (createSubscription_fault _ f)
      by (cbn [outage]; now rewrite Hout).
    cbn [ret UpgradePage.selectedPlan UpgradePage.errorText
         UpgradePage.navigated].
    eexists. split; [reflexivity |].
    exact Htable.
Qed.

Lemma handleUpgrade_outcome_witness :
  (outage world_up = None /\
   exists w' : World,
     snd (UpgradePage.handleUpgrade (Some "alice") 2003 page_idle world_up)
     = w' /\
     map status (filter (fun r => (user_id r =? "alice")%string) (table w'))
     = ["expired"; "active"; "active"]) /\
  (outage world_down = Some (ErrorResponse connection_lost) /\
   exists w' : World,
     UpgradePage.handleUpgrade (Some "alice") 2003 page_idle world_down
     = (Returned
          (UpgradePage.mkPageState "monthly" false
             "Failed to upgrade subscription. Please try again or contact support."
             None),
        w') /\
     table w' = table world_down).
Proof.
  split.
  - split; [reflexivity |].
    destruct (proj1 (proj2 (handleUpgrade_outcome "alice" 2003 page_idle
                              world_up)) eq_refl)
      as (sub & w' & Hrun & Htable & Hu & _ & Hst & _).
    exists w'. rewrite Hrun. split; [reflexivity |].
    rewrite Htable, filter_app, map_app. cbn [filter].
    rewrite Hu. cbn. now rewrite Hst.
  - split; [reflexivity |].
    exact (proj2 (proj2 (handleUpgrade_outcome "alice" 2003 page_idle
                           world_down)) _ eq_refl).
Defined.

(** ** Evaluation as time passes *)

Lemma Math_ceil_div_monotone (x y d : Z) :
  0 < d -> x <= y -> Math_ceil_div x d <= Math_ceil_div y d.
Proof.
  intros Hd Hxy.
  pose proof (Math_ceil_div_bounds x d Hd) as Hx.
  pose proof (Math_ceil_div_bounds y d Hd) as Hy.
  nia.
Qed.

(** X20. With the table and the store unchanged, a later clock reading
    resolves the same subscription with the same features, never grants
    access that an earlier reading refused, and never shows more days
    remaining. *)
Theorem access_fades_with_time (userId : string) (w : World) (t : Timestamp)
    (d1 d2 : AccessDecision) :
  clock w <= t ->
  fst (checkSubscriptionAccess userId w) = Returned d1 ->
  fst (checkSubscriptionAccess userId (at_time w t)) = Returned d2 ->
  subscription d2 = subscription d1 /\
  features d2 = features d1 /\
  (hasAccess d2 = true -> hasAccess d1 = true) /\
  match daysRemaining d1, daysRemaining d2 with
  | Some n1, Some n2 => n2 <= n1
  | None, None => True
  | _, _ => False
  end.
Proof.
  intros Hlater H1 H2.
  assert (Hday : 0 < DAY) by reflexivity.
  pose proof (getUserSubscription_depends userId w (at_time w t)
                eq_refl eq_refl) as Hsame.
  destruct (getUserSubscription_never_throws userId w)
    as (found & w' & Hget & _).
  rewrite Hget in Hsame. cbn [fst] in Hsame. symmetry in Hsame.
  destruct found as [sub |].
  - rewrite (checkSubscriptionAccess_found userId w sub) in H1
      by now rewrite Hget.
    rewrite (checkSubscriptionAccess_found userId _ sub Hsame) in H2.
    cbn [fst at_time clock] in H1, H2.
    injection H1 as <-. injection H2 as <-.
    cbn [subscription features hasAccess daysRemaining].
    split; [reflexivity |]. split; [reflexivity |]. split.
    + rewrite !andb_true_iff, !Z.gtb_gt. intros [Hactive Hend].
      split; [exact Hactive | lia].
    + pose proof (Math_ceil_div_monotone (current_period_end sub - t)
                    (current_period_end sub - clock w) DAY Hday
                    ltac:(lia)).
      lia.
  - rewrite checkSubscriptionAccess_not_found in H1 by now rewrite Hget.
    rewrite checkSubscriptionAccess_not_found in H2 by exact Hsame.
    cbn [fst] in H1, H2. injection H1 as <-. injection H2 as <-.
    repeat split. discriminate.
Qed.

Lemma access_fades_with_time_witness :
  clock world_up <= 500 * DAY /\
  exists d1 d2 : AccessDecision,
    fst (checkSubscriptionAccess "alice" world_up) = Returned d1 /\
    fst (checkSubscriptionAccess "alice" (at_time world_up (500 * DAY)))
    = Returned d2 /\
    hasAccess d1 = true /\ hasAccess d2 = false /\
    subscription d2 = subscription d1.
Proof.
  assert (Hlater : clock world_up <= 500 * DAY) by discriminate.
  split; [exact Hlater |].
  eexists. eexists. split; [reflexivity |]. split; [reflexivity |].
  split; [reflexivity |]. split; [reflexivity |].
  exact (proj1 (access_fades_with_time "alice" world_up (500 * DAY) _ _
                  Hlater eq_refl eq_refl)).
Defined.
